(** * Session-and-trace correlation model of claude-code-langfuse

    A shallow embedding of [claude_logger.py], [global_observer.py],
    [claude_session_manager.py] and of the self-test and the stop of
    [track.py].

    Conventions.
    - Python [float]s are idealised as exact rationals ([Q]); Python [int]s
      are [Z]; a Python [str] is a [string] whose characters are counted by
      [String.length].
    - Every effect (a call on a Langfuse client, the construction of a client,
      a clock read, a line on stdout, a record of the [logging] module) is an
      [event] in one global [trace], most recent event first.  What the outside
      world answers is read from an [environment], which sees the whole trace
      so far: any deterministic behaviour of the remote sink is an instance.
      Looking up the own process, reading the working directory and
      registering a signal handler leave no event; the environment says
      whether they raise.
    - Methods are written in a state-and-exception monad in which the object
      and the trace survive a raised exception, as they do in Python. *)

From Stdlib Require Import Ascii QArith Qround Qminmax Lqa.
From stdpp Require Import base gmap sets list strings pretty.

Set Warnings "-register-all".
Local Open Scope Z_scope.

(** ** Python values *)

Inductive value : Type :=
| VNone
| VBool (b : bool)
| VInt (n : Z)
| VFloat (q : Q)
| VStr (s : string)
| VList (l : list value)
| VDict (d : list (string * value)).

(** A Python [dict] with string keys, in insertion order. *)
Definition pydict : Type := list (string * value).

Fixpoint dict_get (k : string) (d : pydict) : option value :=
  match d with
  | [] => None
  | (k', v) :: d' => if String.eqb k k' then Some v else dict_get k d'
  end.

Definition dict_has (k : string) (d : pydict) : bool :=
  match dict_get k d with Some _ => true | None => false end.

(** [d.get(k, default)] *)
Definition dict_get_default (k : string) (default : value) (d : pydict) : value :=
  match dict_get k d with Some v => v | None => default end.

(** [d[k] = v]: replaces in place or appends. *)
Fixpoint dict_set (k : string) (v : value) (d : pydict) : pydict :=
  match d with
  | [] => [(k, v)]
  | (k', v') :: d' =>
      if String.eqb k k' then (k, v) :: d' else (k', v') :: dict_set k v d'
  end.

Definition of_opt_str (o : option string) : value :=
  match o with Some s => VStr s | None => VNone end.

Definition of_opt_int (o : option Z) : value :=
  match o with Some n => VInt n | None => VNone end.

(** Truthiness of an [Optional[str]]. *)
Definition truthy_str (o : option string) : bool :=
  match o with
  | Some s => negb (String.eqb s "")
  | None => false
  end.

(** Truthiness of a value. *)
Definition truthy (v : value) : bool :=
  match v with
  | VNone => false
  | VBool b => b
  | VInt n => negb (Z.eqb n 0)
  | VFloat q => negb (Qeq_bool q 0)
  | VStr s => negb (String.eqb s "")
  | VList l => match l with [] => false | _ => true end
  | VDict d => match d with [] => false | _ => true end
  end.

(** The line feed of ["\n"]. *)
Definition nl : string := String (ascii_of_nat 10) EmptyString.

(** [min(a, b)] of Python: the first argument unless the second is smaller. *)
Definition py_min (a b : Q) : Q := if Qlt_le_dec b a then b else a.

(** [max(a, b)] on ints. *)
Definition py_max (a b : Z) : Z := if Z.ltb a b then b else a.

(** [f"{q:.0f}"]: nearest integer, ties to even. *)
Definition round_half_even (q : Q) : Z :=
  let n := Qfloor q in
  let frac := (q - inject_Z n)%Q in
  match (frac ?= 1 # 2)%Q with
  | Lt => n
  | Gt => n + 1
  | Eq => if Z.even n then n else n + 1
  end.

Definition format_0f (q : Q) : string :=
  if Qlt_le_dec q 0 then "-" +:+ pretty (round_half_even (- q)%Q)
  else pretty (round_half_even q).

(** [needle in hay] *)
Definition contains (needle hay : string) : bool :=
  match String.index 0 needle hay with Some _ => true | None => false end.

(** [s.split('/')[-1]] *)
Fixpoint last_segment_from (acc s : string) : string :=
  match s with
  | EmptyString => acc
  | String c s' =>
      if Ascii.eqb c "/"%char then last_segment_from "" s'
      else last_segment_from (acc +:+ String c "") s'
  end.
Definition last_segment (s : string) : string := last_segment_from "" s.

(** [s.lower()] on ASCII letters *)
Definition lower_char (c : ascii) : ascii :=
  let n := nat_of_ascii c in
  if ((65 <=? n) && (n <=? 90))%nat then ascii_of_nat (n + 32) else c.

Fixpoint lower (s : string) : string :=
  match s with
  | EmptyString => EmptyString
  | String c s' => String (lower_char c) (lower s')
  end.

(** ** Events and the outside world *)

(** A Langfuse client object. *)
Definition handle : Type := nat.

(** The methods of a Langfuse client that the logger calls.  [exit_span] is the
    [__exit__] of the context manager that [start_as_current_span] returns. *)
Inductive call : Type :=
| start_as_current_span (name : string)
| exit_span (name : string)
| update_current_trace (name : option string) (user_id session_id : string)
    (input metadata tags : option value)
| update_current_span (input output metadata : option value)
| get_current_trace_id
| create_score (name trace_id : string) (val : Q) (comment : string)
| flush.

(** A call returns (only [get_current_trace_id] returns something that is
    used) or raises an [Exception] with a message. *)
Inductive outcome : Type :=
| Returned (r : option string)
| Raised (e : string).

Inductive level : Type := INFO | ERROR.

(** Records of the observer's [logging] logger: template and arguments. *)
Inductive log_record : Type :=
| Terminated (pid : Z)
| Discovered (pid : Z) (terminal : string)
| Instrumented (pid : Z) (session_id : string)
| InstrumentFailed (pid : Z) (e : string)
| Monitoring (total instrumented : nat)
| RegistryFailed (e : string)
| AutoInitialized (session_id : option string)
| AutoInitFailed (e : string)
| SessionEnded (session_id : option string) (stats : list (string * value))
| EndFailed (e : string)
| SignalReceived (signum : Z)
| OtherRecord (msg : string).

Inductive event : Type :=
| Remote (h : handle) (c : call) (o : outcome)
| Construct (h : handle) (host : string) (public_key secret_key : option string)
    (err : option string)
| Clock (t : Q)
| Print (line : string)
| Log (lvl : level) (r : log_record)
| SaveRegistry (data : list (string * value)) (err : option string)
| LoadRegistry (err : option string).

(** Most recent event first. *)
Definition trace : Type := list event.

Record environment : Type := {
  (** what a client call answers after the given history *)
  langfuse_call : trace -> handle -> call -> outcome;
  (** [Langfuse(host, public_key, secret_key)]: [Some e] when it raises *)
  langfuse_new : trace -> string -> option string -> option string -> option string;
  (** [time.time()] and [datetime.now()], in seconds *)
  clock : trace -> Q;
  (** [os.getenv] *)
  getenv : string -> option string;
  (** [datetime.isoformat] *)
  isoformat : Q -> string;
  (** [strftime("%Y%m%d_%H%M%S")] *)
  strftime : Q -> string;
  (** writing and reading the registry file: [Some e] when it raises *)
  registry_write : trace -> option string;
  registry_read : trace -> option string;
  (** [os.ttyname(sys.stdin.fileno())]: [None] when it raises *)
  ttyname : option string;
  (** [pathlib]: [Path(p).parts], [Path(p).name], and the path shown relative
      to the home directory when it lies below it, which may raise *)
  path_parts : string -> list string;
  path_name : string -> string;
  path_from_home : string -> string + string;
  (** [os.getcwd()], which may raise *)
  getcwd : string + string;
  (** [psutil.Process(pid)]: [Some e] when it raises *)
  psutil_process : Z -> option string;
  (** [signal.signal(signum, handler)]: [Some e] when it raises *)
  signal_signal : Z -> option string
}.

(** ** State and exceptions *)

Inductive result (A : Type) : Type :=
| Ok (a : A)
| Exn (e : string).
Arguments Ok {A} a.
Arguments Exn {A} e.

Module Py.
Section Monad.
Context {O : Type}.

(** A computation on an object of type [O]: the object and the trace are
    returned also when an exception is raised. *)
Definition M (A : Type) : Type := O -> trace -> result A * O * trace.

Definition ret {A} (a : A) : M A := fun o tr => (Ok a, o, tr).

Definition bind {A B} (m : M A) (k : A -> M B) : M B :=
  fun o tr =>
    match m o tr with
    | (Ok a, o', tr') => k a o' tr'
    | (Exn e, o', tr') => (Exn e, o', tr')
    end.

Definition raise {A} (e : string) : M A := fun o tr => (Exn e, o, tr).

(** [try: m except Exception as e: handler e] *)
Definition try_except {A} (m : M A) (handler : string -> M A) : M A :=
  fun o tr =>
    match m o tr with
    | (Ok a, o', tr') => (Ok a, o', tr')
    | (Exn e, o', tr') => handler e o' tr'
    end.

Definition get_self : M O := fun o tr => (Ok o, o, tr).
Definition set_self (o : O) : M unit := fun _ tr => (Ok tt, o, tr).
Definition emit (e : event) : M unit := fun o tr => (Ok tt, o, e :: tr).

Definition print (line : string) : M unit := emit (Print line).
Definition log (lvl : level) (r : log_record) : M unit := emit (Log lvl r).

Definition now (E : environment) : M Q :=
  fun o tr => let t := clock E tr in (Ok t, o, Clock t :: tr).

(** A call on client [h]: the answer comes from the environment. *)
Definition remote (E : environment) (h : handle) (c : call) : M (option string) :=
  fun o tr =>
    match langfuse_call E tr h c with
    | Returned r => (Ok r, o, Remote h c (Returned r) :: tr)
    | Raised e => (Exn e, o, Remote h c (Raised e) :: tr)
    end.

(** [with client.start_as_current_span(name=name) as span: body].  When the
    span was entered, it is exited on every path; an exception raised by
    the exit replaces the one of the body. *)
Definition with_span {A} (E : environment) (h : handle) (name : string)
    (body : M A) : M A :=
  bind (remote E h (start_as_current_span name)) (fun _ =>
  fun o tr =>
    match body o tr with
    | (r, o', tr') =>
        match remote E h (exit_span name) o' tr' with
        | (Ok _, o'', tr'') => (r, o'', tr'')
        | (Exn e, o'', tr'') => (Exn e, o'', tr'')
        end
    end).

(** A method of another object [l], called from a method of this one. *)
Definition on_object {L A} (l : L) (m : L -> trace -> result A * L * trace)
    : M (A * L) :=
  fun o tr =>
    match m l tr with
    | (Ok a, l', tr') => (Ok (a, l'), o, tr')
    | (Exn e, _, tr') => (Exn e, o, tr')
    end.

(** [for x in xs: body x] *)
Fixpoint for_each {A} (xs : list A) (body : A -> M unit) : M unit :=
  match xs with
  | [] => ret tt
  | x :: xs' => bind (body x) (fun _ => for_each xs' body)
  end.
End Monad.
End Py.

Import Py.

Declare Scope py_scope.
Delimit Scope py_scope with py.
Notation "x <- m ;; k" := (bind m (fun x => k))
  (at level 90, m at level 80, right associativity) : py_scope.
Notation "m ;;; k" := (bind m (fun _ => k))
  (at level 90, right associativity) : py_scope.

Local Open Scope py_scope.

(** ** [claude_logger.py] *)

Module Logger.

Record ClaudeCodeLogger : Type := {
  user_id : string;
  session_id : string;
  interaction_count : Z;
  start_time : Q;
  langfuse : handle;
  current_trace_id : option string
}.

Definition set_interaction_count (n : Z) (self : ClaudeCodeLogger) : ClaudeCodeLogger :=
  {| user_id := user_id self; session_id := session_id self;
     interaction_count := n; start_time := start_time self;
     langfuse := langfuse self; current_trace_id := current_trace_id self |}.

Definition set_current_trace_id (t : option string) (self : ClaudeCodeLogger) : ClaudeCodeLogger :=
  {| user_id := user_id self; session_id := session_id self;
     interaction_count := interaction_count self; start_time := start_time self;
     langfuse := langfuse self; current_trace_id := t |}.

(** [Langfuse(host=..., public_key=..., secret_key=...)]: the new client is
    named by the position of its construction in the trace. *)
Definition new_client {O} (E : environment) (host : string)
    (public_key secret_key : option string) : @M O handle :=
  fun o tr =>
    let h := length tr in
    match langfuse_new E tr host public_key secret_key with
    | None => (Ok h, o, Construct h host public_key secret_key None :: tr)
    | Some e => (Exn e, o, Construct h host public_key secret_key (Some e) :: tr)
    end.

(** The configuration dictionary of [__init__], with string entries. *)
Definition config : Type := list (string * string).

Fixpoint config_get (k : string) (c : config) : option string :=
  match c with
  | [] => None
  | (k', v) :: c' => if String.eqb k k' then Some v else config_get k c'
  end.

(** [config[k]]: a missing key raises [KeyError(k)]. *)
Definition config_item {O} (k : string) (c : config) : @M O string :=
  match config_get k c with
  | Some v => ret v
  | None => raise ("'" +:+ k +:+ "'")
  end.

Definition _init_langfuse {O} (E : environment) (cfg : option config) : @M O handle :=
  match cfg with
  | Some (kv :: c) =>
      let host := default "http://localhost:3001" (config_get "host" (kv :: c)) in
      public_key <- config_item "public_key" (kv :: c);;
      secret_key <- config_item "secret_key" (kv :: c);;
      new_client E host (Some public_key) (Some secret_key)
  | _ =>
      new_client E (default "http://localhost:3001" (getenv E "LANGFUSE_HOST"))
        (getenv E "LANGFUSE_PUBLIC_KEY") (getenv E "LANGFUSE_SECRET_KEY")
  end.

(** [ClaudeCodeLogger(user_id, session_id, config)] *)
Definition __init__ {O} (E : environment) (uid sid : option string)
    (cfg : option config) : @M O ClaudeCodeLogger :=
  let uid' := if truthy_str uid then default "" uid
              else default "anonymous" (getenv E "CLAUDE_USER_ID") in
  sid' <- (if truthy_str sid then ret (default "" sid)
           else t <- now E;; ret ("claude_session_" +:+ pretty (Qfloor t)));;
  t0 <- now E;;
  h <- _init_langfuse E cfg;;
  ret {| user_id := uid'; session_id := sid'; interaction_count := 0;
         start_time := t0; langfuse := h; current_trace_id := None |}.

(** A tool record is a dictionary. *)
Definition tool_info : Type := pydict.

(** [f"{v}"] for the name of a tool: a [str] is itself, and [None], a
    [bool] and an [int] are shown as Python shows them.  How Python shows a
    [float], a [list] or a [dict] is not modelled: such a name is shown by
    a placeholder, and what is proved of the name of a span is proved for
    every name. *)
Definition str_of (v : value) : string :=
  match v with
  | VStr s => s
  | VNone => "None"
  | VBool true => "True"
  | VBool false => "False"
  | VInt n => pretty n
  | _ => "<object>"
  end.

Definition _calculate_quality_score (prompt response : string)
    (tools : option (list tool_info)) : Q :=
  let score := 0.5%Q in
  let score := if (50 <? String.length prompt)%nat then (score + 0.2)%Q else score in
  let score := if (100 <? String.length response)%nat then (score + 0.2)%Q else score in
  let score :=
    match tools with
    | Some (t :: ts) =>
        let tool_bonus := py_min 0.3 (inject_Z (Z.of_nat (length (t :: ts))) * 0.1)%Q in
        (score + tool_bonus)%Q
    | _ => score
    end in
  py_min 1.0 score.

(** The [metadata] of a tool span. *)
Definition tool_metadata (self : ClaudeCodeLogger) (tool : tool_info) : value :=
  VDict [("tool_name", dict_get_default "name" VNone tool);
         ("success", dict_get_default "success" (VBool true) tool);
         ("duration_ms", dict_get_default "duration_ms" (VInt 0) tool);
         ("user_id", VStr (user_id self));
         ("session_id", VStr (session_id self))].

Definition tool_span_name (tool : tool_info) : string :=
  "tool_" +:+ str_of (dict_get_default "name" (VStr "unknown") tool).

Definition _log_tool_usage (E : environment) (tool : tool_info) : @M ClaudeCodeLogger unit :=
  self <- get_self;;
  try_except
    (with_span E (langfuse self) (tool_span_name tool)
       (remote E (langfuse self)
          (update_current_trace None (user_id self) (session_id self) None None None);;;
        remote E (langfuse self)
          (update_current_span
             (Some (dict_get_default "input" (VDict []) tool))
             (Some (dict_get_default "output" (VDict []) tool))
             (Some (tool_metadata self tool)));;;
        ret tt))
    (fun e => print ("⚠️ Failed to log tool: " +:+ e)).

(** The [session_input] dictionary of [start_session], built at time [t]. *)
Definition session_input (E : environment) (t : Q) (self : ClaudeCodeLogger)
    (full_metadata : pydict) : pydict :=
  let session_input : pydict :=
    [("session_start", VStr (isoformat E t));
     ("user_id", VStr (user_id self));
     ("session_id", VStr (session_id self));
     ("session_type", VStr "claude_code_session")] in
  let session_input :=
    match dict_get "project_name" full_metadata with
    | Some v => dict_set "project" v session_input
    | None => session_input
    end in
  match dict_get "project_path" full_metadata with
  | Some v => dict_set "project_path" v session_input
  | None => session_input
  end.

Definition start_session (E : environment) (metadata : option pydict) : @M ClaudeCodeLogger string :=
  self <- get_self;;
  try_except
    (with_span E (langfuse self) "claude_code_session"
       (t <- now E;;
        let full_metadata : pydict := default [] metadata in
        let session_input := session_input E t self full_metadata in
        remote E (langfuse self)
          (update_current_trace (Some "claude_code_session")
             (user_id self) (session_id self)
             (Some (VDict session_input)) (Some (VDict full_metadata))
             (Some (dict_get_default "tags"
                      (VList [VStr "claude-code"; VStr "auto-discovered"])
                      full_metadata)));;;
        remote E (langfuse self)
          (update_current_span (Some (VDict session_input)) None
             (Some (VDict full_metadata)));;;
        tid <- remote E (langfuse self) get_current_trace_id;;
        set_self (set_current_trace_id tid self);;;
        (if truthy_str tid then
           remote E (langfuse self)
             (create_score "session_active" (default "" tid) 1.0
                ("Active session: " +:+ session_id self));;; ret tt
         else ret tt));;;
     print ("✅ Session started: " +:+ session_id self);;;
     ret (session_id self))
    (fun e =>
       print ("⚠️ Failed to start session: " +:+ e);;;
       ret (session_id self)).

(** The [input] and [output] of an interaction span. *)
Definition interaction_input (self : ClaudeCodeLogger) (user_prompt : string)
    (context : option pydict) : value :=
  VDict [("prompt", VStr user_prompt);
         ("interaction_number", VInt (interaction_count self));
         ("context", VDict (default [] context))].

Definition interaction_output (claude_response : string)
    (tools_used : option (list tool_info)) (duration_ms : option Z) : value :=
  VDict [("response", VStr claude_response);
         ("tools_used", VList (VDict <$> default [] tools_used));
         ("duration_ms", of_opt_int duration_ms)].

(** What [log_interaction] returns when nothing was raised, and when
    something was. *)
Definition interaction_result (self : ClaudeCodeLogger) (trace_id : option string) : pydict :=
  [("interaction_id",
    VStr (session_id self +:+ "_" +:+ pretty (interaction_count self)));
   ("trace_id", of_opt_str trace_id);
   ("interaction_count", VInt (interaction_count self))].

Definition interaction_error (self : ClaudeCodeLogger) (e : string) : pydict :=
  [("interaction_id",
    VStr (session_id self +:+ "_" +:+ pretty (interaction_count self)));
   ("error", VStr e)].

Definition log_interaction (E : environment) (user_prompt claude_response : string)
    (tools_used : option (list tool_info)) (context : option pydict)
    (duration_ms : option Z) : @M ClaudeCodeLogger pydict :=
  self0 <- get_self;;
  set_self (set_interaction_count (interaction_count self0 + 1) self0);;;
  self <- get_self;;
  try_except
    (with_span E (langfuse self) "claude_interaction"
       (remote E (langfuse self)
          (update_current_trace None (user_id self) (session_id self) None None None);;;
        t <- now E;;
        remote E (langfuse self)
          (update_current_span
             (Some (interaction_input self user_prompt context))
             (Some (interaction_output claude_response tools_used duration_ms))
             (Some (VDict [("user_id", VStr (user_id self));
                           ("session_id", VStr (session_id self));
                           ("timestamp", VStr (isoformat E t))])));;;
        for_each (default [] tools_used) (_log_tool_usage E);;;
        trace_id <- remote E (langfuse self) get_current_trace_id;;
        (if truthy_str trace_id then
           let score := _calculate_quality_score user_prompt claude_response tools_used in
           remote E (langfuse self)
             (create_score "interaction_quality" (default "" trace_id) score
                ("Interaction " +:+ pretty (interaction_count self)));;; ret tt
         else ret tt);;;
        remote E (langfuse self) flush;;;
        ret (interaction_result self trace_id)))
    (fun e =>
       print ("⚠️ Failed to log interaction: " +:+ e);;;
       ret (interaction_error self e)).

(** The [stats] dictionary of [end_session]. *)
Definition session_stats (self : ClaudeCodeLogger) (duration : Q) : pydict :=
  [("total_interactions", VInt (interaction_count self));
   ("session_duration_seconds", VFloat duration);
   ("average_interaction_time",
    VFloat (duration / inject_Z (py_max 1 (interaction_count self)))%Q)].

Definition end_session (E : environment) (summary : option string) : @M ClaudeCodeLogger pydict :=
  self <- get_self;;
  t <- now E;;
  let duration := (t - start_time self)%Q in
  try_except
    (stats <- with_span E (langfuse self) "session_end"
       (remote E (langfuse self)
          (update_current_trace None (user_id self) (session_id self) None None None);;;
        let stats := session_stats self duration in
        t' <- now E;;
        remote E (langfuse self)
          (update_current_span None
             (Some (VDict [("summary",
                            VStr (if truthy_str summary then default "" summary
                                  else "Session completed"));
                           ("statistics", VDict stats)]))
             (Some (VDict [("user_id", VStr (user_id self));
                           ("session_id", VStr (session_id self));
                           ("end_time", VStr (isoformat E t'))])));;;
        ret stats);;
     (if truthy_str (current_trace_id self) then
        let productivity_score := py_min 1.0 (inject_Z (interaction_count self) / 10.0)%Q in
        remote E (langfuse self)
          (create_score "session_productivity" (default "" (current_trace_id self))
             productivity_score
             (pretty (interaction_count self) +:+ " interactions over "
                +:+ format_0f duration +:+ "s"));;; ret tt
      else ret tt);;;
     remote E (langfuse self) flush;;;
     print ("✅ Session ended: " +:+ session_id self);;;
     print ("   Total interactions: " +:+ pretty (interaction_count self));;;
     print ("   Duration: " +:+ format_0f duration +:+ " seconds");;;
     ret stats)
    (fun e =>
       print ("⚠️ Failed to end session: " +:+ e);;;
       ret [("error", VStr e)]).

Definition get_trace_url (E : environment) (trace_id : option string)
    (self : ClaudeCodeLogger) : string :=
  let tid := if truthy_str trace_id then trace_id else current_trace_id self in
  if truthy_str tid then
    let host := default "http://localhost:3001" (getenv E "LANGFUSE_HOST") in
    let project := default "default" (getenv E "LANGFUSE_PROJECT_ID") in
    host +:+ "/project/" +:+ project +:+ "/traces/" +:+ default "" tid
  else "".

(** [__enter__] and [__exit__].  The latter returns nothing, so that an
    exception of the body of the [with] statement is raised again. *)
Definition __enter__ (E : environment) : @M ClaudeCodeLogger unit :=
  start_session E None;;; ret tt.

Definition __exit__ (E : environment) : @M ClaudeCodeLogger unit :=
  end_session E None;;; ret tt.

(** [with logger: body], for a recorder that is already built: when
    [__enter__] returned, [__exit__] is called on every path, and an
    exception that it raises replaces the one of the body. *)
Definition with_logger {A} (E : environment) (body : @M ClaudeCodeLogger A)
    : @M ClaudeCodeLogger A :=
  __enter__ E;;;
  fun o tr =>
    match body o tr with
    | (r, o', tr') =>
        match __exit__ E o' tr' with
        | (Ok _, o'', tr'') => (r, o'', tr'')
        | (Exn e, o'', tr'') => (Exn e, o'', tr'')
        end
    end.

(** The module-level [quick_log(prompt, response, tools)]. *)
Definition quick_log {O} (E : environment) (prompt response : string)
    (tools : option (list tool_info)) : @M O pydict :=
  logger <- __init__ E None None None;;
  started <- on_object logger (start_session E None);;
  result <- on_object (snd started) (log_interaction E prompt response tools None None);;
  on_object (snd result) (end_session E None);;;
  ret (fst result).

End Logger.

(** ** [global_observer.py] *)

Module Observer.
Import Logger.

(** One entry of [psutil.process_iter]. *)
Inductive cwd_result : Type :=
| Cwd (path : option string)
| CwdUnavailable       (* NoSuchProcess, AccessDenied *)
| CwdZombie.           (* ZombieProcess, which is a NoSuchProcess *)

Record os_process : Type := {
  os_pid : Z;
  os_name : option string;
  os_cmdline : option (list string);
  os_create_time : Q;
  (** [proc.terminal()]: [None] when it raises *)
  os_terminal : option (option string);
  os_cwd : cwd_result
}.

Record ClaudeProcess : Type := {
  pid : Z;
  cmdline : list string;
  terminal : string;
  start_time : Q;
  working_directory : option string;
  session_id : option string;
  logger_instance : option ClaudeCodeLogger
}.

Definition set_session_id (s : option string) (p : ClaudeProcess) : ClaudeProcess :=
  {| pid := pid p; cmdline := cmdline p; terminal := terminal p;
     start_time := start_time p; working_directory := working_directory p;
     session_id := s; logger_instance := logger_instance p |}.

Definition set_logger_instance (l : option ClaudeCodeLogger) (p : ClaudeProcess) : ClaudeProcess :=
  {| pid := pid p; cmdline := cmdline p; terminal := terminal p;
     start_time := start_time p; working_directory := working_directory p;
     session_id := session_id p; logger_instance := l |}.

Record GlobalClaudeObserver : Type := {
  discovered_processes : gmap Z ClaudeProcess;
  running : bool
}.

Definition set_discovered (m : gmap Z ClaudeProcess) (o : GlobalClaudeObserver) : GlobalClaudeObserver :=
  {| discovered_processes := m; running := running o |}.

Definition set_running (b : bool) (o : GlobalClaudeObserver) : GlobalClaudeObserver :=
  {| discovered_processes := discovered_processes o; running := b |}.

(** [GlobalClaudeObserver()] *)
Definition new_observer : GlobalClaudeObserver :=
  {| discovered_processes := ∅; running := false |}.

Definition _is_claude_process (cmdline : list string) (name : option string) : bool :=
  match cmdline with
  | [] => false
  | arg0 :: _ =>
      if String.eqb arg0 "claude" && negb (existsb (contains "claude-flow") cmdline)
      then true
      else match name with
           | Some n => String.eqb n "claude"
           | None => false
           end
  end.

Definition _extract_terminal (proc : os_process) : string :=
  match os_terminal proc with
  | Some terminal_info =>
      if truthy_str terminal_info then default "" terminal_info
      else "term_" +:+ pretty (os_pid proc)
  | None => "unknown_" +:+ pretty (os_pid proc)
  end.

Fixpoint discover_claude_processes (snapshot : list os_process) : list ClaudeProcess :=
  match snapshot with
  | [] => []
  | proc :: rest =>
      let cmdline := default [] (os_cmdline proc) in
      if _is_claude_process cmdline (os_name proc) then
        let terminal := _extract_terminal proc in
        let found cwd :=
          {| pid := os_pid proc; cmdline := cmdline; terminal := terminal;
             start_time := os_create_time proc; working_directory := cwd;
             session_id := None; logger_instance := None |} in
        match os_cwd proc with
        | Cwd cwd => found cwd :: discover_claude_processes rest
        | CwdUnavailable | CwdZombie => found None :: discover_claude_processes rest
        end
      else discover_claude_processes rest
  end.

(** [parts[parts.index('github') + 1]], when there is such an element. *)
Fixpoint after_github (parts : list string) : option string :=
  match parts with
  | [] => None
  | p :: rest => if String.eqb p "github" then head rest else after_github rest
  end.

Definition _generate_session_id (E : environment) (claude_proc : ClaudeProcess) : string :=
  let timestamp := strftime E (start_time claude_proc) in
  let project_name :=
    match working_directory claude_proc with
    | Some wd =>
        if String.eqb wd "" then "unknown"
        else
          let parts := path_parts E wd in
          if (2 <=? length parts)%nat then
            if existsb (String.eqb "github") parts then
              default "unknown" (after_github parts)
            else default "unknown" (last parts)
          else "unknown"
    | None => "unknown"
    end in
  let terminal_short :=
    if contains "/" (terminal claude_proc) then last_segment (terminal claude_proc)
    else terminal claude_proc in
  "claude_" +:+ project_name +:+ "_" +:+ terminal_short +:+ "_" +:+ timestamp
    +:+ "_" +:+ pretty (pid claude_proc).

(** Returns the pair of ["name"] and ["path"]. *)
Definition _extract_project_info (E : environment) (working_directory : option string)
    : string * string :=
  match working_directory with
  | Some wd =>
      if String.eqb wd "" then ("unknown", "unknown")
      else
        let parts := path_parts E wd in
        let name :=
          match (if existsb (String.eqb "github") parts then after_github parts else None) with
          | Some n => n
          | None => path_name E wd
          end in
        match path_from_home E wd with
        | inr shown => (name, shown)
        | inl _ => ("unknown", wd)
        end
  | None => ("unknown", "unknown")
  end.

Definition instrument_process (E : environment) : @M ClaudeProcess bool :=
  try_except
    (claude_proc <- get_self;;
     let sid := _generate_session_id E claude_proc in
     set_self (set_session_id (Some sid) claude_proc);;;
     claude_proc <- get_self;;
     logger <- __init__ E (Some (default "global_observer" (getenv E "CLAUDE_USER_ID")))
                 (Some sid) None;;
     let project_info := _extract_project_info E (working_directory claude_proc) in
     let metadata : pydict :=
       [("pid", VInt (pid claude_proc));
        ("terminal", VStr (terminal claude_proc));
        ("working_directory", of_opt_str (working_directory claude_proc));
        ("project_name", VStr (fst project_info));
        ("project_path", VStr (snd project_info));
        ("start_time", VStr (isoformat E (start_time claude_proc)));
        ("cmdline", VStr (String.concat " " (cmdline claude_proc)));
        ("auto_instrumented", VBool true);
        ("session_type", VStr "global_observer");
        ("tags", VList [VStr "claude-code"; VStr "auto-discovered";
                        VStr (fst project_info)])] in
     started <- on_object logger (start_session E (Some metadata));;
     set_self (set_logger_instance (Some (snd started)) claude_proc);;;
     log INFO (Instrumented (pid claude_proc) sid);;;
     ret true)
    (fun e =>
       claude_proc <- get_self;;
       log ERROR (InstrumentFailed (pid claude_proc) e);;;
       ret false).

Definition registry_entry (proc : ClaudeProcess) : value :=
  VDict [("session_id", of_opt_str (session_id proc));
         ("terminal", VStr (terminal proc));
         ("start_time", VFloat (start_time proc));
         ("working_directory", of_opt_str (working_directory proc));
         ("cmdline", VList (VStr <$> cmdline proc));
         ("instrumented", VBool (bool_decide (is_Some (logger_instance proc))))].

(** The order in which a [dict] is walked is not kept by the map. *)
Definition save_registry (E : environment) : @M GlobalClaudeObserver unit :=
  self <- get_self;;
  let registry_data :=
    (fun kv : Z * ClaudeProcess => (pretty (fst kv), registry_entry (snd kv)))
      <$> map_to_list (discovered_processes self) in
  fun o tr =>
    match registry_write E tr with
    | None => (Ok tt, o, SaveRegistry registry_data None :: tr)
    | Some e =>
        log ERROR (RegistryFailed e) o (SaveRegistry registry_data (Some e) :: tr)
    end.


(** The part of an iteration that finalizes one process that is gone. *)
Definition remove_dead (E : environment) (dead : Z) : @M GlobalClaudeObserver unit :=
  log INFO (Terminated dead);;;
  self <- get_self;;
  match discovered_processes self !! dead with
  | None => raise (pretty dead)
  | Some proc =>
      match logger_instance proc with
      | Some logger =>
          try_except
            (on_object logger (end_session E (Some "Process terminated"));;; ret tt)
            (fun _ => ret tt)
      | None => ret tt
      end;;;
      self <- get_self;;
      set_self (set_discovered (delete dead (discovered_processes self)) self)
  end.

(** The part of an iteration that handles one process of the snapshot. *)
Definition add_new (E : environment) (proc : ClaudeProcess) : @M GlobalClaudeObserver unit :=
  self <- get_self;;
  match discovered_processes self !! pid proc with
  | Some _ => ret tt
  | None =>
      log INFO (Discovered (pid proc) (terminal proc));;;
      r <- on_object proc (instrument_process E);;
      if fst r then
        self <- get_self;;
        set_self (set_discovered (<[pid proc := snd r]> (discovered_processes self)) self)
      else ret tt
  end.

(** One iteration of the [while self.running] loop of [monitor_loop], on
    the processes that the operating system reports at that time. *)
Definition poll (E : environment) (snapshot : list os_process) : @M GlobalClaudeObserver unit :=
  try_except
    (let current_processes := discover_claude_processes snapshot in
     let current_pids : gset Z := list_to_set (pid <$> current_processes) in
     self <- get_self;;
     let dead_pids := dom (discovered_processes self) ∖ current_pids in
     for_each (elements dead_pids) (remove_dead E);;;
     for_each current_processes (add_new E);;;
     save_registry E;;;
     self <- get_self;;
     let active_sessions :=
       length (filter (fun kv : Z * ClaudeProcess => is_Some (logger_instance (snd kv)))
                 (map_to_list (discovered_processes self))) in
     log INFO (Monitoring (size (discovered_processes self)) active_sessions))
    (fun e => log ERROR (OtherRecord ("Error in monitoring loop: " +:+ e))).

(** [cleanup], when [self.discovered_processes.values()] walks the tracked
    processes in the order [walk].  Python walks a [dict] in the order in
    which the keys were inserted, which the map does not keep. *)
Definition cleanup_walk (E : environment) (walk : list (Z * ClaudeProcess))
    : @M GlobalClaudeObserver unit :=
  log INFO (OtherRecord "Cleaning up instrumented processes...");;;
  for_each walk (fun kv =>
    match logger_instance (snd kv) with
    | Some logger =>
        try_except
          (on_object logger (end_session E (Some "Observer shutdown"));;; ret tt)
          (fun e => log ERROR (OtherRecord
             ("Error ending session for PID " +:+ pretty (pid (snd kv)) +:+ ": " +:+ e)))
    | None => ret tt
    end);;;
  self <- get_self;;
  set_self (set_running false self);;;
  log INFO (OtherRecord "Global observer shutdown complete").



Definition proc_status (E : environment) (proc : ClaudeProcess) : value :=
  VDict [("pid", VInt (pid proc));
         ("terminal", VStr (terminal proc));
         ("session_id", of_opt_str (session_id proc));
         ("working_directory", of_opt_str (working_directory proc));
         ("start_time", VStr (isoformat E (start_time proc)));
         ("instrumented", VBool (bool_decide (is_Some (logger_instance proc))));
         ("trace_url",
          match logger_instance proc with
          | Some logger => VStr (get_trace_url E None logger)
          | None => VNone
          end)].

Definition status (E : environment) (snapshot : list os_process) : @M GlobalClaudeObserver pydict :=
  self <- get_self;;
  (if bool_decide (size (discovered_processes self) = 0%nat) then
     for_each (discover_claude_processes snapshot) (fun proc =>
       self <- get_self;;
       set_self (set_discovered (<[pid proc := proc]> (discovered_processes self)) self))
   else ret tt);;;
  self <- get_self;;
  let procs := snd <$> map_to_list (discovered_processes self) in
  ret [("total_processes", VInt (Z.of_nat (size (discovered_processes self))));
       ("instrumented_processes",
        VInt (Z.of_nat (length (filter (fun p => is_Some (logger_instance p)) procs))));
       ("processes", VList (proc_status E <$> procs))].

End Observer.

(** ** [claude_session_manager.py] *)

Module SessionManager.
Import Logger.

Record ClaudeSessionManager : Type := {
  logger_instance : option ClaudeCodeLogger;
  session_id : option string;
  pid : Z;
  auto_enabled : bool
}.

Definition set_logger_instance (l : option ClaudeCodeLogger) (m : ClaudeSessionManager) : ClaudeSessionManager :=
  {| logger_instance := l; session_id := session_id m; pid := pid m;
     auto_enabled := auto_enabled m |}.

Definition set_session_id (s : option string) (m : ClaudeSessionManager) : ClaudeSessionManager :=
  {| logger_instance := logger_instance m; session_id := s; pid := pid m;
     auto_enabled := auto_enabled m |}.

(** The loop over [terminal_methods]: a probe is [None] when it raises, and
    its result is kept when it is truthy. *)
Fixpoint first_result (methods : list (option (option string))) (otherwise : string) : string :=
  match methods with
  | [] => otherwise
  | None :: rest => first_result rest otherwise
  | Some result :: rest =>
      if truthy_str result then default "" result else first_result rest otherwise
  end.

Definition tty_probe (E : environment) : option (option string) :=
  match ttyname E with
  | Some name => Some (Some ("tty_" +:+ last_segment name))
  | None => None
  end.

Definition terminal_methods (E : environment) (pid : Z) : list (option (option string)) :=
  [Some (getenv E "TERM_SESSION_ID");
   Some (getenv E "TMUX_PANE");
   Some (getenv E "WINDOWID");
   tty_probe E;
   Some (Some ("pid_" +:+ pretty pid))].

(** Building the list of probes does not raise, so that the outer handler,
    which returns ["fallback_<pid>"], is never entered. *)
Definition _detect_terminal (E : environment) (pid : Z) : string :=
  match Ok (first_result (terminal_methods E pid) ("unknown_" +:+ pretty pid)) with
  | Ok r => r
  | Exn _ => "fallback_" +:+ pretty pid
  end.

(** A call that returns nothing of use and may raise. *)
Definition may_raise {O} (outcome : option string) : @M O unit :=
  match outcome with
  | Some e => raise e
  | None => ret tt
  end.

Definition _auto_initialize (E : environment) : @M ClaudeSessionManager unit :=
  try_except
    (self <- get_self;;
     may_raise (psutil_process E (pid self));;;
     let terminal := _detect_terminal E (pid self) in
     working_dir <- match getcwd E with
                    | inr d => ret d
                    | inl e => raise e
                    end;;
     t <- now E;;
     let sid := "claude_session_" +:+ terminal +:+ "_" +:+ pretty (Qfloor t)
                  +:+ "_" +:+ pretty (pid self) in
     set_self (set_session_id (Some sid) self);;;
     self <- get_self;;
     logger <- __init__ E
                 (Some (default ("user_" +:+ pretty (pid self)) (getenv E "CLAUDE_USER_ID")))
                 (Some sid) None;;
     set_self (set_logger_instance (Some logger) self);;;
     let metadata : pydict :=
       [("pid", VInt (pid self));
        ("terminal", VStr terminal);
        ("working_directory", VStr working_dir);
        ("auto_instrumented", VBool true);
        ("session_type", VStr "embedded")] in
     started <- on_object logger (start_session E (Some metadata));;
     set_self (set_logger_instance (Some (snd started)) self);;;
     log INFO (AutoInitialized (Some sid));;;
     may_raise (signal_signal E 15);;;
     may_raise (signal_signal E 2))
    (fun e => log ERROR (AutoInitFailed e)).

(** [ClaudeSessionManager(auto_detect)] in the process [pid]. *)
Definition __init__ (E : environment) (pid : Z) (auto_detect : bool)
    : ClaudeSessionManager -> trace -> result unit * ClaudeSessionManager * trace :=
  fun _ tr =>
    let enabled :=
      String.eqb (lower (default "true" (getenv E "CLAUDE_LANGFUSE_AUTO"))) "true" in
    let self := {| logger_instance := None; session_id := None; pid := pid;
                   auto_enabled := enabled |} in
    if auto_detect && enabled then _auto_initialize E self tr
    else (Ok tt, self, tr).

Definition log_interaction (E : environment) (user_prompt claude_response : string)
    (tools_used : option (list tool_info)) : @M ClaudeSessionManager pydict :=
  self <- get_self;;
  match logger_instance self with
  | None => ret [("error", VStr "Session not initialized")]
  | Some logger =>
      r <- on_object logger
             (Logger.log_interaction E user_prompt claude_response tools_used None None);;
      set_self (set_logger_instance (Some (snd r)) self);;;
      ret (fst r)
  end.

Definition log_tool_usage (E : environment) (tool_name : string)
    (tool_input tool_output : pydict) (success : bool) : @M ClaudeSessionManager unit :=
  self <- get_self;;
  match logger_instance self with
  | None => ret tt
  | Some logger =>
      let tool : tool_info :=
        [("name", VStr tool_name); ("input", VDict tool_input);
         ("output", VDict tool_output); ("success", VBool success)] in
      r <- on_object logger (_log_tool_usage E tool);;
      set_self (set_logger_instance (Some (snd r)) self)
  end.

(** Returns [None] where the Python method returns nothing. *)
Definition end_session (E : environment) (reason : string)
    : @M ClaudeSessionManager (option pydict) :=
  self <- get_self;;
  match logger_instance self with
  | None => ret None
  | Some logger =>
      fun o tr =>
        match (r <- on_object logger (Logger.end_session E (Some reason));;
               log INFO (SessionEnded (session_id self) (fst r));;;
               ret (Some (fst r))) o tr with
        | (Ok stats, o', tr') => (Ok stats, set_logger_instance None o', tr')
        | (Exn e, o', tr') =>
            match log ERROR (EndFailed e) o' tr' with
            | (_, o'', tr'') => (Ok None, set_logger_instance None o'', tr'')
            end
        end
  end.

Definition get_trace_url (E : environment) (self : ClaudeSessionManager) : option string :=
  match logger_instance self with
  | None => None
  | Some logger => Some (Logger.get_trace_url E None logger)
  end.

Definition _cleanup_handler (E : environment) (signum : Z) : @M ClaudeSessionManager unit :=
  log INFO (OtherRecord ("Received signal " +:+ pretty signum +:+ ", cleaning up session"));;;
  end_session E ("Process terminated with signal " +:+ pretty signum);;;
  ret tt.

(** [exc_type] is the name of the class of the exception that left the body
    of the [with] statement, if any. *)
Definition __exit__ (E : environment) (exc_type : option string) : @M ClaudeSessionManager unit :=
  match exc_type with
  | Some name => end_session E ("Session ended with exception: " +:+ name);;; ret tt
  | None => end_session E "Session completed normally";;; ret tt
  end.

End SessionManager.

(** The functions of the module [claude_session_manager]: the object is the
    global [_session_manager], which a function reads and which keeps
    pointing to the manager that the methods mutate; [pid] is the pid of the
    process. *)
Module Convenience.
Import Logger SessionManager.

Definition get_session_manager (E : environment) (pid : Z)
    : @M (option ClaudeSessionManager) ClaudeSessionManager :=
  _session_manager <- get_self;;
  match _session_manager with
  | Some m => ret m
  | None =>
      fun _ tr =>
        match SessionManager.__init__ E pid true
                {| logger_instance := None; session_id := None; pid := pid;
                   auto_enabled := false |} tr with
        | (Ok _, m, tr') => (Ok m, Some m, tr')
        | (Exn e, _, tr') => (Exn e, None, tr')
        end
  end.

Definition log_interaction (E : environment) (pid : Z) (user_prompt claude_response : string)
    (tools_used : option (list tool_info)) : @M (option ClaudeSessionManager) pydict :=
  m <- get_session_manager E pid;;
  r <- on_object m (SessionManager.log_interaction E user_prompt claude_response tools_used);;
  set_self (Some (snd r));;;
  ret (fst r).

Definition log_tool_usage (E : environment) (pid : Z) (tool_name : string)
    (tool_input tool_output : pydict) (success : bool)
    : @M (option ClaudeSessionManager) unit :=
  m <- get_session_manager E pid;;
  r <- on_object m (SessionManager.log_tool_usage E tool_name tool_input tool_output success);;
  set_self (Some (snd r)).

Definition get_trace_url (E : environment) (pid : Z)
    : @M (option ClaudeSessionManager) (option string) :=
  m <- get_session_manager E pid;;
  ret (SessionManager.get_trace_url E m).

(** A call of one of the three functions. *)
Inductive request : Type :=
| LogInteraction (user_prompt claude_response : string) (tools_used : option (list tool_info))
| LogToolUsage (tool_name : string) (tool_input tool_output : pydict) (success : bool)
| GetTraceUrl.

Definition serve (E : environment) (pid : Z) (r : request)
    : @M (option ClaudeSessionManager) unit :=
  match r with
  | LogInteraction p r t => log_interaction E pid p r t;;; ret tt
  | LogToolUsage n i o s => log_tool_usage E pid n i o s
  | GetTraceUrl => get_trace_url E pid;;; ret tt
  end.

End Convenience.

(** ** [track.py] *)

Module Tracker.
Import Logger.

Record ClaudeTracker : Type := {
  user_id : string;
  logger : option ClaudeCodeLogger;
  tracking : bool
}.





(** [test]: the recorder is a local variable.  A trace id that is not a
    string does not occur; it would be shown by [str]. *)
Definition test (E : environment) : @M ClaudeTracker bool :=
  print "🧪 Testing Claude Code Tracker...";;;
  passed <- try_except
    (l <- __init__ E (Some "test@example.com") None None;;
     started <- on_object l (start_session E (Some [("test", VBool true)]));;
     result <- on_object (snd started)
                 (log_interaction E "Test prompt" "Test response"
                    (Some [[("name", VStr "TestTool"); ("success", VBool true)]])
                    None None);;
     let trace_id := dict_get_default "trace_id" VNone (fst result) in
     (if truthy trace_id then
        print "✅ LangFuse connection: OK";;;
        print ("   Test trace: "
                 +:+ get_trace_url E (Some (str_of trace_id)) (snd result))
      else print "⚠️ LangFuse connection: Trace created but no ID returned");;;
     on_object (snd result) (end_session E (Some "Test completed"));;;
     ret true)
    (fun e =>
       print "❌ LangFuse connection: Failed";;;
       print ("   Error: " +:+ e);;;
       ret false);;
  if passed then print (nl +:+ "✅ All tests passed!");;; ret true
  else ret false.

End Tracker.

(** ** What is observed on a trace *)

Module Observe.

(** The messages of the exceptions raised by the outside world. *)
Definition raised_of (e : event) : option string :=
  match e with
  | Remote _ _ (Raised msg) => Some msg
  | Construct _ _ _ _ (Some msg) => Some msg
  | _ => None
  end.
Definition raised (D : trace) : list string := omap raised_of D.

(** The calls that [log_interaction] makes itself and a tool span never
    does (both update the trace and the span). *)
Definition own_call (c : call) : bool :=
  match c with
  | start_as_current_span name | exit_span name => String.eqb name "claude_interaction"
  | get_current_trace_id | create_score _ _ _ _ | flush => true
  | _ => false
  end.
Definition own_raised_of (e : event) : option string :=
  match e with
  | Remote _ c (Raised msg) => if own_call c then Some msg else None
  | _ => None
  end.
Definition own_raised (D : trace) : list string := omap own_raised_of D.


(** The clients on which a span of the given name was requested. *)
Definition span_request (name : string) (e : event) : option handle :=
  match e with
  | Remote h (start_as_current_span n) _ => if String.eqb n name then Some h else None
  | _ => None
  end.
Definition span_requests (name : string) (D : trace) : list handle :=
  omap (span_request name) D.

(** The scores of a given name sent for a trace. *)
Definition score_of (name : string) (e : event) : option (string * Q) :=
  match e with
  | Remote _ (create_score n tid v _) _ => if String.eqb n name then Some (tid, v) else None
  | _ => None
  end.
Definition scores (name : string) (D : trace) : list (string * Q) :=
  omap (score_of name) D.

(** The constructions of a client. *)
Definition construction_of (e : event) : option handle :=
  match e with Construct h _ _ _ _ => Some h | _ => None end.
Definition constructions (D : trace) : list handle := omap construction_of D.

(** The clients that were built. *)
Definition constructed_of (e : event) : option handle :=
  match e with Construct h _ _ _ None => Some h | _ => None end.
Definition constructed (D : trace) : list handle := omap constructed_of D.

(** The pids in the records of the observer. *)
Definition terminated_of (e : event) : option Z :=
  match e with Log INFO (Terminated p) => Some p | _ => None end.
Definition terminated (D : trace) : list Z := omap terminated_of D.

Definition discovered_of (e : event) : option Z :=
  match e with Log INFO (Discovered p _) => Some p | _ => None end.
Definition discovered (D : trace) : list Z := omap discovered_of D.

Definition instrumented_of (e : event) : option Z :=
  match e with Log INFO (Instrumented p _) => Some p | _ => None end.
Definition instrumented (D : trace) : list Z := omap instrumented_of D.

Definition loop_error_of (e : event) : option string :=
  match e with Log ERROR (OtherRecord msg) => Some msg | _ => None end.
Definition loop_errors (D : trace) : list string := omap loop_error_of D.

(** The calls on clients, oldest first. *)
Definition remote_of (e : event) : option (handle * call * outcome) :=
  match e with Remote h c o => Some (h, c, o) | _ => None end.
Definition remote_calls (D : trace) : list (handle * call * outcome) :=
  rev (omap remote_of D).

(** [is_open h e]: [e] is a span that client [h] opened. *)
Definition is_open (h : handle) (e : event) : bool :=
  match e with
  | Remote h' (start_as_current_span _) (Returned _) => Nat.eqb h h'
  | _ => false
  end.

(** [is_association h uid sid e]: [e] sends the pair to the trace of [h]. *)
Definition is_association (h : handle) (uid sid : string) (e : event) : bool :=
  match e with
  | Remote h' (update_current_trace _ u s _ _ _) _ =>
      Nat.eqb h h' && String.eqb u uid && String.eqb s sid
  | _ => false
  end.

(** Every span that [h] opened is followed, as the next call on a client, by
    the association of the pair; [next] is the call that follows the head of
    the trace. *)
Fixpoint associated_from (h : handle) (uid sid : string) (next : option event)
    (D : trace) : bool :=
  match D with
  | [] => true
  | Remote h' c o :: older =>
      (if is_open h (Remote h' c o) then
         match next with
         | Some e' => is_association h uid sid e'
         | None => false
         end
       else true)
      && associated_from h uid sid (Some (Remote h' c o)) older
  | _ :: older => associated_from h uid sid next older
  end.

Definition associated (h : handle) (uid sid : string) (D : trace) : bool :=
  associated_from h uid sid None D.

(** The events of a logger method are calls on its client, clock reads and
    lines on stdout. *)
Definition logger_only (D : trace) : Prop :=
  constructions D = [] /\ terminated D = [] /\ discovered D = []
  /\ instrumented D = [] /\ loop_errors D = [].

(** The client of the recorder that the observer holds for [p], if any. *)
Definition session_end_of (m : gmap Z Observer.ClaudeProcess) (p : Z) : option handle :=
  Logger.langfuse <$> (m !! p ≫= Observer.logger_instance).

(** The clients of the recorders that the observer holds, in the order in
    which the tracked processes are walked. *)
Definition held_client (kv : Z * Observer.ClaudeProcess) : option handle :=
  Logger.langfuse <$> Observer.logger_instance kv.2.
Definition held_clients (m : gmap Z Observer.ClaudeProcess) : list handle :=
  omap held_client (map_to_list m).

(** The first call on a client in [D]. *)
Definition first_call (D : trace) : option (handle * call * outcome) :=
  head (remote_calls D).

End Observe.

(** ** The formulas of the specification *)

Module Spec.
Import Logger Observe.

(** [qualityScore]: base 0.5, +0.2 for a prompt of more than 50 characters,
    +0.2 for a response of more than 100, + min(0.3, 0.1 * tools) when tools
    are present, at most 1.0. *)
Definition qualityScore (prompt response : string) (tools : option (list tool_info)) : Q :=
  Qmin 1.0
    (0.5
     + (if (50 <? String.length prompt)%nat then 0.2 else 0)
     + (if (100 <? String.length response)%nat then 0.2 else 0)
     + (match tools with
        | Some (t :: ts) => Qmin 0.3 (0.1 * inject_Z (Z.of_nat (length (t :: ts))))
        | _ => 0
        end))%Q.

(** [productivityScore]: min(1.0, interactionCount / 10.0). *)
Definition productivityScore (interactionCount : Z) : Q :=
  Qmin 1.0 (inject_Z interactionCount / 10.0)%Q.

(** One call of [log_interaction] and its arguments. *)
Record interaction : Type := {
  prompt : string;
  response : string;
  tools_used : option (list tool_info);
  context : option pydict;
  duration_ms : option Z
}.



(** The events that [tr'] has beyond [tr]. *)
Definition new_events (tr tr' : trace) : trace :=
  take (length tr' - length tr) tr'.




(** C2 as the specification words it: on a recorder that is not active,
    [log_interaction] returns an error and has no effect; a second
    [end_session] sends no session-end data again. *)
Definition rejected_when_not_active (E : environment) (x : interaction)
    (self : ClaudeCodeLogger) (tr : trace) : Prop :=
  forall res self' tr',
    log_interaction E (prompt x) (response x) (tools_used x) (context x) (duration_ms x)
      self tr = (Ok res, self', tr') ->
    is_Some (dict_get "error" res) /\ self' = self /\ tr' = tr.

Definition second_end_is_noop (E : environment) (self : ClaudeCodeLogger)
    (tr : trace) : Prop :=
  forall r1 self1 tr1 r2 self2 tr2,
    end_session E None self tr = (r1, self1, tr1) ->
    end_session E None self1 tr1 = (r2, self2, tr2) ->
    span_requests "session_end" (new_events tr1 tr2) = []
    /\ scores "session_productivity" (new_events tr1 tr2) = [].

(** The four probes that the specification lists for [detectTerminal]: the
    terminal session id, the multiplexer pane id, the window id and the tty
    device name. *)
Definition four_probes (E : environment) : list (option (option string)) :=
  [Some (getenv E "TERM_SESSION_ID");
   Some (getenv E "TMUX_PANE");
   Some (getenv E "WINDOWID");
   SessionManager.tty_probe E].

(** The first result that is a non-empty string; a probe that raised is
    [None]. *)
Fixpoint first_non_empty (probes : list (option (option string))) : option string :=
  match probes with
  | [] => None
  | Some (Some s) :: rest =>
      if String.eqb s "" then first_non_empty rest else Some s
  | _ :: rest => first_non_empty rest
  end.

(** C9 as the specification words it: the value is the first non-empty
    result of the four probes, or every probe raised and the value is one of
    the two fallbacks. *)
Definition detect_terminal_as_claimed (E : environment) (pid : Z) (r : string) : Prop :=
  first_non_empty (four_probes E) = Some r
  \/ (Forall (fun probe => probe = None) (four_probes E)
      /\ (r = "unknown_" +:+ pretty pid \/ r = "fallback_" +:+ pretty pid)).

(** [c * n] *)
Fixpoint replicate_char (n : nat) (c : ascii) : string :=
  match n with
  | O => EmptyString
  | S n' => String c (replicate_char n' c)
  end.

End Spec.

(** ** Concrete environments and recorders *)

Module Examples.
Import Logger.

(** A sink on which every call returns, with one trace id. *)
Definition quiet_env : environment := {|
  langfuse_call := fun _ _ c =>
    match c with
    | get_current_trace_id => Returned (Some "trace-1")
    | _ => Returned None
    end;
  langfuse_new := fun _ _ _ _ => None;
  clock := fun tr => inject_Z (Z.of_nat (length tr));
  getenv := fun _ => None;
  isoformat := fun t => pretty (Qfloor t);
  strftime := fun t => pretty (Qfloor t);
  registry_write := fun _ => None;
  registry_read := fun _ => None;
  ttyname := None;
  path_parts := fun _ => [];
  path_name := fun p => p;
  path_from_home := fun p => inr p;
  getcwd := inr "/";
  psutil_process := fun _ => None;
  signal_signal := fun _ => None
|}.

(** A sink on which every call raises, and no client can be built. *)
Definition failing_env : environment := {|
  langfuse_call := fun _ _ _ => Raised "unreachable";
  langfuse_new := fun _ _ _ _ => Some "no credentials";
  clock := clock quiet_env;
  getenv := getenv quiet_env;
  isoformat := isoformat quiet_env;
  strftime := strftime quiet_env;
  registry_write := registry_write quiet_env;
  registry_read := registry_read quiet_env;
  ttyname := None;
  path_parts := path_parts quiet_env;
  path_name := path_name quiet_env;
  path_from_home := path_from_home quiet_env;
  getcwd := inr "/";
  psutil_process := fun _ => None;
  signal_signal := fun _ => None
|}.


(** [ClaudeCodeLogger(user_id="dev", session_id="s")], never started. *)
Definition new_logger : ClaudeCodeLogger := {|
  user_id := "dev";
  session_id := "s";
  interaction_count := 0;
  Logger.start_time := 0;
  langfuse := 0%nat;
  current_trace_id := None
|}.


Definition short_interaction : Spec.interaction := {|
  Spec.prompt := "hi";
  Spec.response := "hello";
  Spec.tools_used := None;
  Spec.context := None;
  Spec.duration_ms := None
|}.


(** [new_logger] after [start_session] on the quiet sink. *)
Definition started_logger : ClaudeCodeLogger :=
  set_current_trace_id (Some "trace-1") new_logger.

End Examples.

(** * Proofs *)

Import Logger Observe.

(** ** Tactics for running a method *)

#[local] Arguments session_input : simpl never.
#[local] Arguments dict_get_default : simpl never.
#[local] Arguments interaction_input : simpl never.
#[local] Arguments interaction_output : simpl never.
#[local] Arguments interaction_result : simpl never.
#[local] Arguments interaction_error : simpl never.
#[local] Arguments session_stats : simpl never.
#[local] Arguments tool_metadata : simpl never.
#[local] Arguments tool_span_name : simpl never.
#[local] Arguments String.append : simpl never.
#[local] Arguments _calculate_quality_score : simpl never.
#[local] Arguments truthy_str : simpl never.
#[local] Arguments py_min : simpl never.
#[local] Arguments format_0f : simpl never.
#[local] Arguments pretty : simpl never.

Ltac unfold_py :=
  unfold with_span, try_except, bind, remote, now, ret, raise, get_self, set_self,
    print, log, emit, on_object.

(** Case analysis on the answer of the next client call. *)
Ltac step_call :=
  match goal with
  | |- context [langfuse_call ?E ?tr ?h ?c] =>
      let o := fresh "o" in
      let Ho := fresh "Ho" in
      destruct (langfuse_call E tr h c) as [o|o] eqn:Ho; cbn
  end.

(** Reads the new events off the final trace. *)
Ltac delta_of t tr :=
  lazymatch t with
  | tr => constr:(@nil event)
  | ?e :: ?t' => let r := delta_of t' tr in constr:(e :: r)
  | ?A ++ ?t' => let r := delta_of t' tr in constr:(A ++ r)
  end.

Ltac give_delta :=
  match goal with
  | |- (_, _, ?t) = (_, _, _ ++ ?tr) =>
      let D := delta_of t tr in
      instantiate (1 := D); cbn [app]; rewrite <- ?app_assoc; reflexivity
  end.

(** ** Traces *)

Lemma associated_from_weaken h uid sid next D :
  associated_from h uid sid None D = true ->
  associated_from h uid sid next D = true.
Proof.
  induction D as [|e D IH]; [reflexivity|].
  destruct e; cbn [associated_from]; try exact IH.
  destruct (is_open h (Remote h0 c o)); [discriminate|]. auto.
Qed.

Lemma associated_from_app h uid sid next D2 D1 :
  associated_from h uid sid next D2 = true ->
  associated_from h uid sid None D1 = true ->
  associated_from h uid sid next (D2 ++ D1) = true.
Proof.
  revert next. induction D2 as [|e D2 IH]; intros next H2 H1.
  - now apply associated_from_weaken.
  - destruct e; cbn [app associated_from] in *; try (now apply IH).
    apply andb_true_iff in H2 as [Ha Hb]. rewrite Ha. cbn. now apply IH.
Qed.

Lemma associated_app h uid sid D2 D1 :
  associated h uid sid D2 = true -> associated h uid sid D1 = true ->
  associated h uid sid (D2 ++ D1) = true.
Proof. apply associated_from_app. Qed.

(** ** The methods of the logger *)

Ltac solve_associated :=
  unfold associated; cbn; rewrite ?Nat.eqb_refl, ?String.eqb_refl; reflexivity.

Lemma elem_of_raised_here (e : string) l : e ∈ e :: l.
Proof. apply list_elem_of_here. Qed.

Lemma start_session_run E metadata self tr :
  exists self' D,
    start_session E metadata self tr = (Ok (session_id self), self', D ++ tr)
    /\ associated (langfuse self) (user_id self) (session_id self) D = true
    /\ first_call D =
         Some (langfuse self, start_as_current_span "claude_code_session",
               langfuse_call E tr (langfuse self)
                 (start_as_current_span "claude_code_session"))
    /\ (self' = self
        \/ exists r, self' = set_current_trace_id r self
             /\ Remote (langfuse self) get_current_trace_id (Returned r) ∈ D)
    /\ (raised D = []
          /\ head D = Some (Print ("✅ Session started: " +:+ session_id self))
        \/ exists e, e ∈ raised D
             /\ head D = Some (Print ("⚠️ Failed to start session: " +:+ e))).
Proof.
  unfold start_session. unfold_py. cbn.
  repeat (step_call; try destruct (truthy_str _) eqn:?; cbn).
  all: do 2 eexists; split; [give_delta|].
  all: split; [solve_associated|].
  all: split; [cbn; congruence|].
  all: split;
    [ first [ left; reflexivity
            | right; eexists; split; [reflexivity|]; set_solver ] |].
  all: first [ left; split; reflexivity
             | right; eexists; split; [|reflexivity]; cbn; set_solver ].
Qed.

Lemma logger_only_app D2 D1 : logger_only D2 -> logger_only D1 -> logger_only (D2 ++ D1).
Proof.
  unfold logger_only, constructions, terminated, discovered, instrumented, loop_errors.
  intros (a & b & c & d & e) (a' & b' & c' & d' & e').
  rewrite !omap_app, a, b, c, d, e, a', b', c', d', e'. repeat split.
Qed.

Lemma tool_span_not_own tool :
  String.eqb (tool_span_name tool) "claude_interaction" = false.
Proof. reflexivity. Qed.

Lemma tool_span_not_end tool :
  String.eqb (tool_span_name tool) "session_end" = false.
Proof. reflexivity. Qed.

Lemma log_tool_usage_run E tool self tr :
  exists D,
    _log_tool_usage E tool self tr = (Ok tt, self, D ++ tr)
    /\ associated (langfuse self) (user_id self) (session_id self) D = true
    /\ first_call D =
         Some (langfuse self, start_as_current_span (tool_span_name tool),
               langfuse_call E tr (langfuse self)
                 (start_as_current_span (tool_span_name tool)))
    /\ own_raised D = []
    /\ span_requests "session_end" D = []
    /\ logger_only D
    /\ (raised D = []
        \/ exists e, e ∈ raised D
             /\ head D = Some (Print ("⚠️ Failed to log tool: " +:+ e))).
Proof.
  unfold _log_tool_usage. unfold_py. cbn.
  repeat (step_call; cbn).
  all: eexists; split; [give_delta|].
  all: split; [solve_associated|].
  all: split; [cbn; congruence|].
  all: split; [cbn; rewrite ?tool_span_not_own; reflexivity|].
  all: split; [cbn; rewrite ?tool_span_not_end; reflexivity|].
  all: split; [repeat split|].
  all: first [ left; reflexivity
             | right; eexists; split; [|reflexivity]; cbn; set_solver ].
Qed.

Lemma log_tools_run E tools self tr :
  exists D,
    for_each tools (_log_tool_usage E) self tr = (Ok tt, self, D ++ tr)
    /\ associated (langfuse self) (user_id self) (session_id self) D = true
    /\ own_raised D = []
    /\ span_requests "session_end" D = []
    /\ logger_only D
    /\ (tools = [] -> D = []).
Proof.
  revert tr. induction tools as [|tool tools IH]; intros tr.
  - exists []. repeat split.
  - destruct (log_tool_usage_run E tool self tr) as (D1 & Hrun & Ha & _ & Ho & He & Hq & _).
    destruct (IH (D1 ++ tr)) as (D2 & Hrun2 & Ha2 & Ho2 & He2 & Hq2 & _).
    exists (D2 ++ D1). cbn [for_each]. unfold bind at 1. rewrite Hrun, Hrun2.
    split; [by rewrite app_assoc|].
    split; [by apply associated_app|].
    split; [unfold own_raised in *; by rewrite omap_app, Ho, Ho2|].
    split; [unfold span_requests in *; by rewrite omap_app, He, He2|].
    split; [by apply logger_only_app|]. discriminate.
Qed.

Lemma log_interaction_run E prompt response tools context duration_ms self tr :
  let self' := set_interaction_count (interaction_count self + 1) self in
  exists res D,
    log_interaction E prompt response tools context duration_ms self tr
      = (Ok res, self', D ++ tr)
    /\ associated (langfuse self) (user_id self) (session_id self) D = true
    /\ first_call D =
         Some (langfuse self, start_as_current_span "claude_interaction",
               langfuse_call E tr (langfuse self)
                 (start_as_current_span "claude_interaction"))
    /\ span_requests "session_end" D = []
    /\ logger_only D
    /\ ((exists tid, res = interaction_result self' tid)
          /\ own_raised D = []
          /\ (default [] tools = [] -> raised D = [])
        \/ exists e, res = interaction_error self' e
             /\ e ∈ raised D
             /\ head D = Some (Print ("⚠️ Failed to log interaction: " +:+ e))).
Proof.
  intros self'. unfold log_interaction. unfold_py. cbn. fold self'.
  change (langfuse self') with (langfuse self).
  change (user_id self') with (user_id self).
  change (session_id self') with (session_id self).
  step_call.
  2:{ do 2 eexists; split; [give_delta|].
      split; [solve_associated|]. split; [cbn; congruence|].
      split; [reflexivity|]. split; [repeat split|].
      right; eexists; split; [reflexivity|]. split; [cbn; set_solver|reflexivity]. }
  step_call.
  2:{ step_call.
      all: do 2 eexists; split; [give_delta|].
      all: split; [solve_associated|]. all: split; [cbn; congruence|].
      all: split; [reflexivity|]. all: split; [repeat split|].
      all: right; eexists; split; [reflexivity|]; split; [cbn; set_solver|reflexivity]. }
  step_call.
  2:{ step_call.
      all: do 2 eexists; split; [give_delta|].
      all: split; [solve_associated|]. all: split; [cbn; congruence|].
      all: split; [reflexivity|]. all: split; [repeat split|].
      all: right; eexists; split; [reflexivity|]; split; [cbn; set_solver|reflexivity]. }
  match goal with
  | |- context [for_each ?ts ?f ?s ?t] =>
      destruct (log_tools_run E ts s t) as (Dt & Hrun & Hassoc & Hown & Hend & Hquiet & Hnil)
  end.
  change (langfuse self') with (langfuse self) in *.
  change (user_id self') with (user_id self) in *.
  change (session_id self') with (session_id self) in *.
  rewrite Hrun. cbn.
  repeat (step_call; try destruct (truthy_str _) eqn:?; cbn).
  all: do 2 eexists; split; [give_delta|].
  all: split;
    [ unfold associated; cbn; rewrite ?Nat.eqb_refl, ?String.eqb_refl; cbn;
      apply associated_from_app; [by apply associated_from_weaken|solve_associated] |].
  all: split;
    [ unfold first_call, remote_calls; cbn; rewrite !omap_app, !rev_app_distr; cbn;
      congruence |].
  all: split;
    [ unfold span_requests in *; cbn; rewrite !omap_app, Hend; reflexivity |].
  all: split;
    [ repeat match goal with |- context [?a :: ?D ++ ?b] =>
        change (a :: D ++ b) with ([a] ++ D ++ b) end;
      repeat apply logger_only_app; try assumption; repeat split |].
  all: first
    [ left; split; [eexists; reflexivity|]; split;
      [ unfold own_raised in *; cbn; rewrite !omap_app, Hown; reflexivity
      | intros Hn; rewrite (Hnil Hn); reflexivity ]
    | right; eexists; split; [reflexivity|]; split; [cbn; set_solver|reflexivity] ].
Qed.

Lemma end_session_run E summary self tr :
  let t := clock E tr in
  let duration := (t - Logger.start_time self)%Q in
  exists res D,
    end_session E summary self tr = (Ok res, self, D ++ tr)
    /\ associated (langfuse self) (user_id self) (session_id self) D = true
    /\ first_call D =
         Some (langfuse self, start_as_current_span "session_end",
               langfuse_call E (Clock t :: tr) (langfuse self)
                 (start_as_current_span "session_end"))
    /\ span_requests "session_end" D = [langfuse self]
    /\ last D = Some (Clock t)
    /\ logger_only D
    /\ (res = session_stats self duration
          /\ raised D = []
          /\ scores "session_productivity" D =
               (if truthy_str (current_trace_id self) then
                  [(default "" (current_trace_id self),
                    py_min 1.0 (inject_Z (interaction_count self) / 10.0)%Q)]
                else [])
          /\ head D = Some (Print ("   Duration: " +:+ format_0f duration +:+ " seconds"))
        \/ exists e, res = [("error", VStr e)]
             /\ e ∈ raised D
             /\ head D = Some (Print ("⚠️ Failed to end session: " +:+ e))).
Proof.
  intros t duration. unfold end_session. unfold_py. cbn. fold t. fold duration.
  repeat (step_call; try destruct (truthy_str (current_trace_id self)) eqn:?; cbn).
  all: do 2 eexists; split; [give_delta|].
  all: split; [solve_associated|].
  all: split; [cbn; congruence|].
  all: split; [reflexivity|].
  all: split; [reflexivity|].
  all: split; [repeat split|].
  all: first
    [ left; repeat split; reflexivity
    | right; eexists; split; [reflexivity|]; split; [cbn; set_solver|reflexivity] ].
Qed.

(** ** Scores *)

Import Spec.

Lemma py_min_Qmin a b : (py_min a b == Qmin a b)%Q.
Proof.
  unfold py_min. destruct (Qlt_le_dec b a) as [H|H]; symmetry.
  - apply Q.min_r. apply Qlt_le_weak; exact H.
  - apply Q.min_l. exact H.
Qed.

Lemma py_min_le_l a b : (py_min a b <= a)%Q.
Proof. unfold py_min. destruct (Qlt_le_dec b a); lra. Qed.

Lemma py_min_glb a b c : (c <= a)%Q -> (c <= b)%Q -> (c <= py_min a b)%Q.
Proof. unfold py_min. destruct (Qlt_le_dec b a); lra. Qed.

Lemma py_max_Zmax a b : py_max a b = Z.max a b.
Proof. unfold py_max. destruct (Z.ltb_spec a b); lia. Qed.

Lemma quality_refines prompt response tools :
  (_calculate_quality_score prompt response tools
   == qualityScore prompt response tools)%Q.
Proof.
  unfold _calculate_quality_score, qualityScore.
  rewrite py_min_Qmin.
  destruct (50 <? String.length prompt)%nat, (100 <? String.length response)%nat;
    destruct tools as [[|t ts]|];
    rewrite ?py_min_Qmin;
    try (apply Q.min_compat; [reflexivity|]);
    try (rewrite (Qmult_comm (inject_Z _) 0.1)); ring.
Qed.

Lemma quality_bounds prompt response tools :
  (0.5 <= _calculate_quality_score prompt response tools <= 1.0)%Q.
Proof.
  unfold _calculate_quality_score. split; [|apply py_min_le_l].
  apply py_min_glb; [lra|].
  assert (Hb : forall l : list tool_info,
             (0 <= py_min 0.3 (inject_Z (Z.of_nat (length l)) * 0.1))%Q).
  { intros l. apply py_min_glb; [lra|].
    assert (0 <= inject_Z (Z.of_nat (length l)))%Q
      by (change 0%Q with (inject_Z 0); rewrite <- Zle_Qle; lia).
    nra. }
  destruct (50 <? String.length prompt)%nat, (100 <? String.length response)%nat;
    destruct tools as [[|t ts]|]; try lra;
    specialize (Hb (t :: ts)); lra.
Qed.

(** C5: the quality score is the spec's formula, a function of its three
    arguments alone, lies between 0.5 and 1.0, and takes the stated values on
    the empty interaction, on a prompt of 51 characters with a response of 101
    and five tools, and on the long prompt or the long response alone. *)
Theorem quality_score_formula :
  (forall prompt response tools,
      (_calculate_quality_score prompt response tools
       == qualityScore prompt response tools)%Q
      /\ (0.5 <= _calculate_quality_score prompt response tools <= 1.0)%Q)
  /\ (_calculate_quality_score "" "" (Some []) == 0.5)%Q
  /\ (forall t1 t2 t3 t4 t5,
        (_calculate_quality_score (replicate_char 51 "a") (replicate_char 101 "b")
           (Some [t1; t2; t3; t4; t5]) == 1.0)%Q)
  /\ (_calculate_quality_score (replicate_char 51 "a") "" (Some []) == 0.7)%Q
  /\ (_calculate_quality_score "" (replicate_char 101 "b") (Some []) == 0.7)%Q.
Proof.
  split; [intros; split; [apply quality_refines|apply quality_bounds]|].
  repeat split; intros; reflexivity.
Qed.

Lemma productivity_refines n :
  (py_min 1.0 (inject_Z n / 10.0) == productivityScore n)%Q.
Proof. apply py_min_Qmin. Qed.

Lemma productivity_full (k : nat) : (productivityScore (10 + Z.of_nat k) == 1.0)%Q.
Proof.
  unfold productivityScore. apply Q.min_l.
  assert (inject_Z 10 <= inject_Z (10 + Z.of_nat k))%Q by (rewrite <- Zle_Qle; lia).
  change (inject_Z 10) with 10%Q in H.
  apply Qle_shift_div_l; lra.
Qed.

(** C6: [end_session] takes the duration from the clock and [start_time];
    when no call on the sink raises it returns the three statistics, the
    average dividing by max(1, interaction_count), which is positive, and it
    has sent the session_productivity score min(1.0, interaction_count / 10.0)
    exactly when the recorder holds a trace id; when a call raises it returns
    a dictionary with the error instead.  The score is 0.0 for no
    interaction, 0.5 for five and 1.0 from ten on. *)
Theorem end_session_statistics :
  (forall E summary self tr,
      let duration := (clock E tr - Logger.start_time self)%Q in
      exists res D,
        end_session E summary self tr = (Ok res, self, D ++ tr)
        /\ last D = Some (Clock (clock E tr))
        /\ (0 < Z.max 1 (interaction_count self))
        /\ (raised D = []
              /\ res = [("total_interactions", VInt (interaction_count self));
                        ("session_duration_seconds", VFloat duration);
                        ("average_interaction_time",
                         VFloat (duration / inject_Z (Z.max 1 (interaction_count self)))%Q)]
              /\ (exists v,
                    (v == productivityScore (interaction_count self))%Q
                    /\ scores "session_productivity" D =
                         if truthy_str (current_trace_id self)
                         then [(default "" (current_trace_id self), v)] else [])
            \/ exists e, e ∈ raised D /\ res = [("error", VStr e)]))
  /\ (productivityScore 0 == 0)%Q
  /\ (productivityScore 5 == 0.5)%Q
  /\ (forall k : nat, (productivityScore (10 + Z.of_nat k) == 1.0)%Q).
Proof.
  split; [|repeat split; try reflexivity; apply productivity_full].
  intros E summary self tr duration.
  destruct (end_session_run E summary self tr)
    as (res & D & Hrun & _ & _ & _ & Hlast & _ & Hres).
  exists res, D. split; [exact Hrun|].
  split; [exact Hlast|].
  split; [lia|].
  destruct Hres as [(-> & Hr & Hs & _)|(e & -> & He & _)].
  - left. split; [exact Hr|]. split.
    + unfold session_stats. by rewrite py_max_Zmax.
    + eexists. split; [apply productivity_refines|exact Hs].
  - right. by exists e.
Qed.

(** ** The association of a session *)




(** ** The association of a trace with the user and the session *)










(** ** Starting a session *)

(** C4: [start_session] returns, and what it returns is the session id of the
    recorder, for every metadata and every behaviour of the sink; when a call
    raised, the last line printed reports that failure; the trace id of the
    recorder is untouched, or is what the sink returned.  On a sink where
    every call raises, it stays unset. *)
Theorem start_session_never_raises :
  (forall E metadata self tr, exists self' D,
      start_session E metadata self tr = (Ok (session_id self), self', D ++ tr)
      /\ (raised D = []
            /\ head D = Some (Print ("✅ Session started: " +:+ session_id self))
          \/ exists e, e ∈ raised D
               /\ head D = Some (Print ("⚠️ Failed to start session: " +:+ e)))
      /\ (self' = self
          \/ exists r, self' = set_current_trace_id r self
               /\ Remote (langfuse self) get_current_trace_id (Returned r) ∈ D))
  /\ start_session Examples.failing_env None Examples.new_logger []
     = (Ok "s", Examples.new_logger,
        [Print "⚠️ Failed to start session: unreachable";
         Remote 0%nat (start_as_current_span "claude_code_session") (Raised "unreachable")]).
Proof.
  split; [|reflexivity].
  intros E metadata self tr.
  destruct (start_session_run E metadata self tr) as (self' & D & Hrun & _ & _ & Hs & Hl).
  by exists self', D.
Qed.

(** ** Building a recorder *)

#[local] Arguments config_get : simpl never.

Lemma init_run {O} E uid sid cfg (o : O) tr :
  exists D,
    ((exists l, __init__ E uid sid cfg o tr = (Ok l, o, D ++ tr)
        /\ interaction_count l = 0
        /\ current_trace_id l = None
        /\ (truthy_str sid = true -> Logger.session_id l = default "" sid)
        /\ constructions D = [langfuse l]
        /\ constructed D = [langfuse l])
     \/ (exists e, __init__ E uid sid cfg o tr = (Exn e, o, D ++ tr)
           /\ constructed D = []))
    /\ span_requests "session_end" D = []
    /\ terminated D = [] /\ discovered D = [] /\ instrumented D = []
    /\ loop_errors D = [].
Proof.
  unfold __init__, _init_langfuse, new_client, config_item. unfold_py.
  destruct (truthy_str sid); destruct cfg as [[|kv c]|]; cbn.
  all: repeat match goal with
         | |- context [config_get ?k (?kv :: ?c)] =>
             destruct (config_get k (kv :: c)) eqn:?; cbn
         | |- context [langfuse_new ?E ?t ?a ?b ?c] =>
             destruct (langfuse_new E t a b c) eqn:?; cbn
         end.
  all: eexists; split;
    [ first [ left; eexists; split; [give_delta|]; repeat split; done
            | right; eexists; split; [give_delta|reflexivity] ]
    | repeat split ].
Qed.

(** ** Counting interactions *)



(** ** Which failures reach the result of an interaction *)







(** ** No lifecycle state *)

Lemma manager_end_session_run E reason m tr :
  SessionManager.logger_instance (SessionManager.end_session E reason m tr).1.2 = None
  /\ exists r, (SessionManager.end_session E reason m tr).1.1 = Ok r.
Proof.
  unfold SessionManager.end_session. unfold_py.
  destruct (SessionManager.logger_instance m) as [logger|] eqn:Hl.
  - destruct (end_session_run E (Some reason) logger tr) as (res & D & Hrun & _).
    rewrite Hrun. cbn. split; [reflexivity|by eexists].
  - cbn. split; [exact Hl|by eexists].
Qed.

(** On the quiet sink, a recorder that was never started logs an interaction
    as usual, and a second [end_session] sends the span and the score again. *)
Lemma unstarted_recorder_logs_and_second_end_resends :
  ~ rejected_when_not_active Examples.quiet_env Examples.short_interaction
      Examples.new_logger []
  /\ ~ second_end_is_noop Examples.quiet_env Examples.started_logger [].
Proof.
  split; intros H.
  - unfold rejected_when_not_active in H.
    destruct (log_interaction Examples.quiet_env
                (prompt Examples.short_interaction) (response Examples.short_interaction)
                (tools_used Examples.short_interaction)
                (context Examples.short_interaction)
                (duration_ms Examples.short_interaction) Examples.new_logger [])
      as [[[res|e] self'] tr'] eqn:Hrun.
    2:{ vm_compute in Hrun. discriminate. }
    destruct (H res self' tr' eq_refl) as (_ & _ & Htr).
    vm_compute in Hrun. injection Hrun as <- <- <-. discriminate.
  - unfold second_end_is_noop in H.
    destruct (end_session Examples.quiet_env None Examples.started_logger [])
      as [[r1 self1] tr1] eqn:Hrun1.
    destruct (end_session Examples.quiet_env None self1 tr1)
      as [[r2 self2] tr2] eqn:Hrun2.
    destruct (H r1 self1 tr1 r2 self2 tr2 eq_refl Hrun2) as (Hspan & _).
    vm_compute in Hrun1. injection Hrun1 as <- <- <-.
    vm_compute in Hrun2. injection Hrun2 as <- <- <-.
    vm_compute in Hspan. discriminate.
Qed.

(** C2 (amended): the recorder keeps no lifecycle state.  On every recorder,
    started or not and ended or not, [log_interaction] increments the count
    and requests its span, and [_log_tool_usage] requests its span.
    [end_session] leaves the recorder as it was, so that a second call
    returns as the first did, with the same count, and requests the
    session_end span again.  The result "Session not initialized" is that of
    the session manager when it holds no recorder, which is the case after
    its [end_session]. *)
Theorem recorder_keeps_no_lifecycle_state :
  (forall E prompt response tools context duration_ms self tr,
      let self' := set_interaction_count (interaction_count self + 1) self in
      exists res D o,
        log_interaction E prompt response tools context duration_ms self tr
          = (Ok res, self', D ++ tr)
        /\ first_call D
           = Some (langfuse self, start_as_current_span "claude_interaction", o)
        /\ ((exists tid, res = interaction_result self' tid)
            \/ exists e, res = interaction_error self' e /\ e ∈ raised D))
  /\ (forall E tool self tr, exists D o,
        _log_tool_usage E tool self tr = (Ok tt, self, D ++ tr)
        /\ first_call D
           = Some (langfuse self, start_as_current_span (tool_span_name tool), o))
  /\ (forall E summary1 summary2 self tr, exists r1 D1 r2 D2,
        end_session E summary1 self tr = (Ok r1, self, D1 ++ tr)
        /\ end_session E summary2 self (D1 ++ tr) = (Ok r2, self, D2 ++ D1 ++ tr)
        /\ span_requests "session_end" D2 = [langfuse self]
        /\ (dict_get "total_interactions" r2 = Some (VInt (interaction_count self))
              /\ scores "session_productivity" D2 =
                   (if truthy_str (current_trace_id self) then
                      [(default "" (current_trace_id self),
                        py_min 1.0 (inject_Z (interaction_count self) / 10.0)%Q)]
                    else [])
            \/ exists e, r2 = [("error", VStr e)] /\ e ∈ raised D2))
  /\ (forall E prompt response tools m tr,
        SessionManager.log_interaction E prompt response tools
          (SessionManager.set_logger_instance None m) tr
        = (Ok [("error", VStr "Session not initialized")],
           SessionManager.set_logger_instance None m, tr))
  /\ (forall E reason m tr,
        SessionManager.logger_instance
          (SessionManager.end_session E reason m tr).1.2 = None)
  /\ (forall E reason m tr,
        SessionManager.end_session E reason (SessionManager.set_logger_instance None m) tr
        = (Ok None, SessionManager.set_logger_instance None m, tr)).
Proof.
  split; [|split; [|split; [|split; [|split]]]].
  - intros E prompt response tools context duration_ms self tr self'.
    destruct (log_interaction_run E prompt response tools context duration_ms self tr)
      as (res & D & Hrun & _ & Hf & _ & _ & Hres).
    exists res, D. eexists. split; [exact Hrun|]. split; [exact Hf|].
    destruct Hres as [((tid & ->) & _)|(e & -> & He & _)].
    + left. by exists tid.
    + right. by exists e.
  - intros E tool self tr.
    destruct (log_tool_usage_run E tool self tr) as (D & Hrun & _ & Hf & _).
    exists D. eexists. by split.
  - intros E summary1 summary2 self tr.
    destruct (end_session_run E summary1 self tr) as (r1 & D1 & Hrun1 & _).
    destruct (end_session_run E summary2 self (D1 ++ tr))
      as (r2 & D2 & Hrun2 & _ & _ & Hspan & _ & _ & Hres).
    exists r1, D1, r2, D2. split; [exact Hrun1|]. split; [exact Hrun2|].
    split; [exact Hspan|].
    destruct Hres as [(-> & _ & Hs & _)|(e & -> & He & _)].
    + left. by split.
    + right. by exists e.
  - reflexivity.
  - intros E reason m tr. apply manager_end_session_run.
  - reflexivity.
Qed.

(** ** The observer: instrumenting one process *)

Import Observer.

#[local] Arguments __init__ : simpl never.
#[local] Arguments start_session : simpl never.
#[local] Arguments end_session : simpl never.
#[local] Arguments _generate_session_id : simpl never.
#[local] Arguments _extract_project_info : simpl never.
#[local] Arguments isoformat : simpl never.

Lemma start_session_quiet E metadata self tr :
  exists self' D,
    start_session E metadata self tr = (Ok (Logger.session_id self), self', D ++ tr)
    /\ span_requests "session_end" D = []
    /\ constructed D = []
    /\ logger_only D.
Proof.
  unfold start_session. unfold_py. cbn.
  repeat (step_call; try destruct (truthy_str _) eqn:?; cbn).
  all: do 2 eexists; split; [give_delta|].
  all: repeat split.
Qed.

Lemma end_session_quiet E summary self tr :
  exists res D,
    end_session E summary self tr = (Ok res, self, D ++ tr)
    /\ span_requests "session_end" D = [langfuse self]
    /\ constructed D = []
    /\ logger_only D.
Proof.
  unfold end_session. unfold_py. cbn.
  repeat (step_call; try destruct (truthy_str (current_trace_id self)) eqn:?; cbn).
  all: do 2 eexists; split; [give_delta|].
  all: repeat split.
Qed.

Lemma instrument_process_run E proc tr :
  exists b proc' D,
    instrument_process E proc tr = (Ok b, proc', D ++ tr)
    /\ pid proc' = pid proc
    /\ (b = true /\ is_Some (logger_instance proc')
          /\ instrumented D = [pid proc] /\ length (constructed D) = 1%nat
        \/ b = false /\ instrumented D = [] /\ constructed D = [])
    /\ span_requests "session_end" D = []
    /\ terminated D = [] /\ discovered D = [] /\ loop_errors D = [].
Proof.
  unfold instrument_process. unfold_py.
  match goal with
  | |- context [__init__ ?E ?u ?s ?c ?o ?t] =>
      destruct (init_run E u s c o t)
        as (D0 & [(l & Hinit & _ & _ & _ & _ & Hc)|(e & Hinit & Hc)] & He & Ht & Hd & Hi & Hl);
      rewrite Hinit
  end.
  - match goal with
    | |- context [start_session ?E ?md ?l ?t] =>
        destruct (start_session_quiet E md l t)
          as (l' & D1 & Hstart & He1 & Hc1 & (_ & Ht1 & Hd1 & Hi1 & Hl1));
        rewrite Hstart
    end.
    cbn. do 3 eexists. split; [give_delta|].
    split; [reflexivity|].
    unfold span_requests, terminated, discovered, instrumented, loop_errors,
      constructed in *.
    cbn. rewrite !omap_app, ?He, ?Ht, ?Hd, ?Hi, ?Hl, ?Hc, ?He1, ?Ht1, ?Hd1, ?Hi1, ?Hl1, ?Hc1.
    split; [left; repeat split; by eexists|]. repeat split.
  - cbn. do 3 eexists. split; [give_delta|].
    split; [reflexivity|].
    unfold span_requests, terminated, discovered, instrumented, loop_errors,
      constructed in *.
    cbn. rewrite ?app_nil_r, ?He, ?Ht, ?Hd, ?Hi, ?Hl, ?Hc.
    split; [right; repeat split|]. repeat split.
Qed.

(** ** The observer: one iteration *)

#[local] Arguments instrument_process : simpl never.

Lemma remove_dead_run E d obs tr proc :
  discovered_processes obs !! d = Some proc ->
  exists D,
    remove_dead E d obs tr
      = (Ok tt, set_discovered (delete d (discovered_processes obs)) obs, D ++ tr)
    /\ terminated D = [d]
    /\ span_requests "session_end" D
       = match logger_instance proc with Some l => [langfuse l] | None => [] end
    /\ discovered D = [] /\ instrumented D = [] /\ constructed D = []
    /\ loop_errors D = [].
Proof.
  intros Hp. unfold remove_dead. unfold_py. cbn. rewrite Hp.
  destruct (logger_instance proc) as [l|].
  - destruct (end_session_quiet E (Some "Process terminated") l
                (Log INFO (Terminated d) :: tr))
      as (res & D & Hrun & He & Hc & (_ & Ht & Hd & Hi & Hl)).
    rewrite Hrun. cbn. eexists. split; [give_delta|].
    unfold span_requests, terminated, discovered, instrumented, loop_errors,
      constructed in *.
    rewrite !omap_app, He, Ht, Hd, Hi, Hl, Hc. repeat split.
  - cbn. exists [Log INFO (Terminated d)]. repeat split.
Qed.

Lemma omap_session_end_delete m d (ds : list Z) :
  d ∉ ds -> omap (session_end_of (delete d m)) ds = omap (session_end_of m) ds.
Proof.
  induction ds as [|p ds IH]; intros Hd; [reflexivity|].
  apply not_elem_of_cons in Hd as [Hne Hd].
  assert (Hp : session_end_of (delete d m) p = session_end_of m p)
    by (unfold session_end_of; by rewrite lookup_delete_ne).
  cbn -[session_end_of]. by rewrite Hp, IH.
Qed.

Lemma remove_all_dead_run E ds :
  NoDup ds ->
  forall obs tr,
    (forall d, d ∈ ds -> is_Some (discovered_processes obs !! d)) ->
    exists m' D,
      for_each ds (remove_dead E) obs tr = (Ok tt, set_discovered m' obs, D ++ tr)
      /\ (forall p, m' !! p = if decide (p ∈ ds) then None
                              else discovered_processes obs !! p)
      /\ rev (terminated D) = ds
      /\ rev (span_requests "session_end" D)
         = omap (session_end_of (discovered_processes obs)) ds
      /\ discovered D = [] /\ instrumented D = [] /\ constructed D = []
      /\ loop_errors D = [].
Proof.
  induction 1 as [|d ds Hd Hnd IH]; intros obs tr Hin.
  - exists (discovered_processes obs), []. split.
    { cbn. unfold ret. by destruct obs. }
    split; [intros p; by rewrite decide_False by apply not_elem_of_nil|].
    repeat split.
  - destruct (Hin d) as [proc Hproc]; [apply list_elem_of_here|].
    destruct (remove_dead_run E d obs tr proc Hproc)
      as (D1 & Hrun & Ht1 & He1 & Hd1 & Hi1 & Hc1 & Hl1).
    set (obs1 := set_discovered (delete d (discovered_processes obs)) obs) in *.
    destruct (IH obs1 (D1 ++ tr)) as (m' & D2 & Hrun2 & Hm & Ht2 & He2 & Hd2 & Hi2 & Hc2 & Hl2).
    { intros p Hp. cbn. rewrite lookup_delete_ne by (intros ->; contradiction).
      apply Hin. by apply list_elem_of_further. }
    exists m', (D2 ++ D1). split.
    { cbn [for_each]. unfold bind at 1. rewrite Hrun, Hrun2. by rewrite app_assoc. }
    split.
    { intros p. rewrite Hm. cbn.
      destruct (decide (p = d)) as [->|Hne].
      - rewrite lookup_delete_eq.
        rewrite (decide_True (P := d ∈ d :: ds)) by apply list_elem_of_here.
        by destruct (decide (d ∈ ds)).
      - rewrite lookup_delete_ne by done.
        destruct (decide (p ∈ ds)) as [Hp|Hp].
        + by rewrite decide_True by (by apply list_elem_of_further).
        + rewrite decide_False; [done|].
          intros [->|?]%elem_of_cons; contradiction. }
    unfold span_requests, terminated, discovered, instrumented, loop_errors,
      constructed in *.
    rewrite !omap_app, !rev_app_distr, Ht1, Ht2, He2, Hd1, Hd2, Hi1, Hi2, Hc1, Hc2,
      Hl1, Hl2, He1.
    split; [reflexivity|]. split; [|repeat split].
    cbn. rewrite omap_session_end_delete by done.
    unfold session_end_of at 2. rewrite Hproc. cbn.
    by destruct (logger_instance proc).
Qed.

Lemma add_new_run E proc obs tr :
  exists obs' D,
    add_new E proc obs tr = (Ok tt, obs', D ++ tr)
    /\ (is_Some (discovered_processes obs !! pid proc) /\ obs' = obs /\ D = []
        \/ discovered_processes obs !! pid proc = None
           /\ discovered D = [pid proc]
           /\ ((exists proc',
                   obs' = set_discovered
                            (<[pid proc := proc']> (discovered_processes obs)) obs
                   /\ is_Some (logger_instance proc')
                   /\ instrumented D = [pid proc]
                   /\ length (constructed D) = 1%nat)
               \/ obs' = obs /\ instrumented D = [] /\ constructed D = []))
    /\ terminated D = [] /\ span_requests "session_end" D = []
    /\ loop_errors D = [].
Proof.
  unfold add_new. unfold_py. cbn.
  destruct (discovered_processes obs !! pid proc) as [old|] eqn:Hp.
  - exists obs, []. split; [reflexivity|]. split; [left; by split; [eexists|]|].
    repeat split.
  - cbn.
    destruct (instrument_process_run E proc
                (Log INFO (Discovered (pid proc) (terminal proc)) :: tr))
      as (b & proc' & D & Hrun & Hpid & Hb & He & Ht & Hd & Hl).
    rewrite Hrun. cbn.
    unfold span_requests, terminated, discovered, instrumented, loop_errors,
      constructed in *.
    destruct Hb as [(-> & Hlog & Hi & Hc)|(-> & Hi & Hc)]; cbn.
    + do 2 eexists. split; [give_delta|].
      rewrite !omap_app, He, Ht, Hd, Hl, Hi. cbn.
      split; [|repeat split].
      right. split; [reflexivity|]. split; [reflexivity|].
      left. exists proc'. rewrite app_nil_r. by repeat split.
    + do 2 eexists. split; [give_delta|].
      rewrite !omap_app, He, Ht, Hd, Hl, Hi, Hc. cbn.
      split; [|repeat split].
      right. split; [reflexivity|]. split; [reflexivity|].
      right. by repeat split.
Qed.

Lemma add_all_new_run E procs :
  forall obs tr,
    let m := discovered_processes obs in
    exists obs' D,
      let m' := discovered_processes obs' in
      for_each procs (add_new E) obs tr = (Ok tt, obs', D ++ tr)
      /\ (forall p, is_Some (m !! p) -> m' !! p = m !! p)
      /\ (forall p, p ∈ discovered D -> m !! p = None /\ p ∈ pid <$> procs)
      /\ (forall p, p ∈ instrumented D ->
            p ∈ discovered D
            /\ exists proc', m' !! p = Some proc' /\ is_Some (logger_instance proc'))
      /\ (forall p, is_Some (m' !! p) -> is_Some (m !! p) \/ p ∈ instrumented D)
      /\ NoDup (instrumented D)
      /\ length (constructed D) = length (instrumented D)
      /\ terminated D = [] /\ span_requests "session_end" D = []
      /\ loop_errors D = [].
Proof.
  induction procs as [|proc procs IH]; intros obs tr m.
  - exists obs, []. cbn. split; [reflexivity|]. split; [done|].
    split; [intros p Hp; by apply elem_of_nil in Hp|].
    split; [intros p Hp; by apply elem_of_nil in Hp|].
    split; [intros p Hp; by left|]. split; [constructor|]. repeat split.
  - destruct (add_new_run E proc obs tr) as (obs1 & D1 & Hrun1 & Hcase & Ht1 & He1 & Hl1).
    destruct (IH obs1 (D1 ++ tr))
      as (obs' & D2 & Hrun2 & Hkeep & Hdisc & Hinst & Hdom & Hnd & Hlen & Ht2 & He2 & Hl2).
    exists obs', (D2 ++ D1). cbn zeta.
    split.
    { cbn [for_each]. unfold bind at 1. rewrite Hrun1, Hrun2. by rewrite app_assoc. }
    set (m1 := discovered_processes obs1) in *.
    set (m' := discovered_processes obs') in *.
    unfold span_requests, terminated, discovered, instrumented, loop_errors,
      constructed in *.
    rewrite !omap_app, Ht1, Ht2, He1, He2, Hl1, Hl2.
    assert (Hgrow : forall p, is_Some (m !! p) -> m1 !! p = m !! p).
    { intros p Hp.
      destruct Hcase as [(_ & -> & _)|(Hnone & _ & [(proc' & -> & _)|(-> & _)])];
        try reflexivity.
      subst m1. cbn. apply lookup_insert_ne. intros Heq. rewrite Heq in Hnone.
      subst m. rewrite Hnone in Hp. by destruct Hp. }
    assert (Hnone1 : forall p, m1 !! p = None -> m !! p = None).
    { intros p Hp. destruct (m !! p) eqn:Hmp; [|reflexivity].
      rewrite Hgrow in Hp by (by rewrite Hmp). by rewrite Hmp in Hp. }
    split.
    { intros p Hp. rewrite Hkeep by (rewrite Hgrow by done; done). by apply Hgrow. }
    split.
    { intros p [Hp|Hp]%elem_of_app.
      - destruct (Hdisc p Hp) as [Hn Hin]. split; [by apply Hnone1|].
        rewrite fmap_cons. by apply list_elem_of_further.
      - destruct Hcase as [(_ & _ & ->)|(Hnone & Hd1 & _)]; [by apply elem_of_nil in Hp|].
        rewrite Hd1 in Hp. apply list_elem_of_singleton in Hp as ->.
        split; [exact Hnone|]. rewrite fmap_cons. apply list_elem_of_here. }
    split.
    { intros p [Hp|Hp]%elem_of_app.
      - destruct (Hinst p Hp) as [Hpd Hex]. split; [|exact Hex].
        apply elem_of_app. by left.
      - destruct Hcase as [(_ & _ & ->)|(Hnone & Hd1 & [(proc' & -> & Hlog & Hi1 & _)|(_ & Hi1 & _)])].
        + by apply elem_of_nil in Hp.
        + rewrite Hi1 in Hp. apply list_elem_of_singleton in Hp as ->.
          split; [apply elem_of_app; right; rewrite Hd1; apply list_elem_of_here|].
          exists proc'. split; [|exact Hlog].
          rewrite Hkeep; subst m1; cbn; rewrite lookup_insert_eq; [done|by eexists].
        + rewrite Hi1 in Hp. by apply elem_of_nil in Hp. }
    split.
    { intros p Hp. destruct (Hdom p Hp) as [H1|H2].
      - destruct Hcase as [(_ & -> & _)|(Hnone & Hd1 & [(proc' & -> & Hlog & Hi1 & _)|(-> & _)])];
          try (by left).
        subst m1. cbn in H1. destruct (decide (pid proc = p)) as [<-|Hne].
        + right. apply elem_of_app. right. rewrite Hi1. apply list_elem_of_here.
        + left. by rewrite lookup_insert_ne in H1.
      - right. apply elem_of_app. by left. }
    split.
    { apply NoDup_app. split; [exact Hnd|]. split.
      - intros p Hp2 Hp1.
        destruct Hcase as [(_ & _ & ->)|(Hnone & Hd1 & [(proc' & -> & Hlog & Hi1 & _)|(_ & Hi1 & _)])].
        + by apply elem_of_nil in Hp1.
        + rewrite Hi1 in Hp1. apply list_elem_of_singleton in Hp1 as ->.
          destruct (Hinst _ Hp2) as [Hpd _]. destruct (Hdisc _ Hpd) as [Hn _].
          subst m1. cbn in Hn. by rewrite lookup_insert_eq in Hn.
        + rewrite Hi1 in Hp1. by apply elem_of_nil in Hp1.
      - destruct Hcase as [(_ & _ & ->)|(Hnone & Hd1 & [(proc' & -> & Hlog & Hi1 & _)|(_ & Hi1 & _)])];
          [constructor| rewrite Hi1; apply NoDup_singleton | rewrite Hi1; constructor]. }
    split; [|repeat split].
    rewrite !length_app, Hlen. f_equal.
    destruct Hcase as [(_ & _ & ->)|(Hnone & Hd1 & [(proc' & -> & Hlog & Hi1 & Hc1)|(_ & Hi1 & Hc1)])];
      [reflexivity | by rewrite Hi1, Hc1 | by rewrite Hi1, Hc1].
Qed.

#[local] Arguments remove_dead : simpl never.
#[local] Arguments add_new : simpl never.
#[local] Arguments discover_claude_processes : simpl never.

Lemma save_registry_run E obs tr :
  exists D,
    save_registry E obs tr = (Ok tt, obs, D ++ tr)
    /\ terminated D = [] /\ span_requests "session_end" D = []
    /\ discovered D = [] /\ instrumented D = [] /\ constructed D = []
    /\ loop_errors D = [].
Proof.
  unfold save_registry. unfold_py. cbn.
  destruct (registry_write E tr); eexists; (split; [give_delta|]); repeat split.
Qed.

Lemma poll_run E snapshot obs tr :
  let m := discovered_processes obs in
  let procs := discover_claude_processes snapshot in
  let dead := elements (dom m ∖ list_to_set (pid <$> procs)) in
  exists obs' Dnew Dfin,
    let m' := discovered_processes obs' in
    poll E snapshot obs tr = (Ok tt, obs', Dnew ++ Dfin ++ tr)
    /\ rev (terminated Dfin) = dead
    /\ rev (span_requests "session_end" Dfin) = omap (session_end_of m) dead
    /\ discovered Dfin = [] /\ instrumented Dfin = [] /\ constructed Dfin = []
    /\ terminated Dnew = [] /\ span_requests "session_end" Dnew = []
    /\ loop_errors (Dnew ++ Dfin) = []
    /\ (forall p, p ∈ dead -> m' !! p = None)
    /\ (forall p, is_Some (m !! p) -> p ∈ pid <$> procs -> m' !! p = m !! p)
    /\ (forall p, p ∈ discovered Dnew -> m !! p = None /\ p ∈ pid <$> procs)
    /\ (forall p, p ∈ instrumented Dnew ->
          p ∈ discovered Dnew
          /\ exists proc', m' !! p = Some proc' /\ is_Some (logger_instance proc'))
    /\ (forall p, is_Some (m' !! p) -> is_Some (m !! p) \/ p ∈ instrumented Dnew)
    /\ NoDup (instrumented Dnew)
    /\ length (constructed Dnew) = length (instrumented Dnew).
Proof.
  intros m procs dead.
  assert (Hdead : forall p, p ∈ dead <-> is_Some (m !! p) /\ p ∉ pid <$> procs).
  { intros p. subst dead. rewrite elem_of_elements, elem_of_difference, elem_of_dom,
      elem_of_list_to_set. reflexivity. }
  destruct (remove_all_dead_run E dead (NoDup_elements _) obs tr)
    as (m1 & D1 & Hrun1 & Hm1 & Ht1 & He1 & Hd1 & Hi1 & Hc1 & Hl1).
  { intros d Hd. by apply Hdead in Hd as [? _]. }
  set (obs1 := set_discovered m1 obs) in *.
  destruct (add_all_new_run E procs obs1 (D1 ++ tr))
    as (obs2 & D2 & Hrun2 & Hkeep & Hdisc & Hinst & Hdom & Hnd & Hlen & Ht2 & He2 & Hl2).
  cbn in Hkeep, Hdisc, Hdom.
  destruct (save_registry_run E obs2 (D2 ++ D1 ++ tr))
    as (D3 & Hrun3 & Ht3 & He3 & Hd3 & Hi3 & Hc3 & Hl3).
  set (m2 := discovered_processes obs2) in *.
  exists obs2,
    (Log INFO (Monitoring (size m2)
       (length (filter (fun kv : Z * ClaudeProcess => is_Some (logger_instance (snd kv)))
                  (map_to_list m2)))) :: D3 ++ D2), D1.
  cbn zeta. fold m2.
  split.
  { unfold poll. unfold_py. fold procs. fold m. fold dead.
    rewrite Hrun1. fold obs1. rewrite Hrun2, Hrun3. cbn.
    rewrite <- !app_assoc. reflexivity. }
  unfold span_requests, terminated, discovered, instrumented, loop_errors,
    constructed in *.
  cbn. rewrite !omap_app, Ht2, Ht3, He2, He3, Hd3, Hi3, Hc3, Hl1, Hl2, Hl3, Hd1, Hi1, Hc1.
  cbn.
  assert (Hmid : forall p, p ∉ dead -> m1 !! p = m !! p).
  { intros p Hp. rewrite Hm1. by rewrite decide_False. }
  assert (Hgone : forall p, p ∈ dead -> m1 !! p = None).
  { intros p Hp. rewrite Hm1. by rewrite decide_True. }
  assert (Hd2 : forall p, p ∈ omap discovered_of D2 -> m !! p = None /\ p ∈ pid <$> procs).
  { intros p Hp. destruct (Hdisc p Hp) as [Hn Hin]. split; [|exact Hin].
    rewrite <- Hmid; [exact Hn|]. intros Hx. apply Hdead in Hx as [_ Hx]. contradiction. }
  split; [exact Ht1|]. split; [exact He1|].
  do 6 (split; [reflexivity|]).
  split.
  { intros p Hp. destruct (m2 !! p) eqn:Hmp; [|reflexivity]. exfalso.
    destruct (Hdom p) as [Hs|Hs]; [by rewrite Hmp| |].
    - rewrite (Hgone p Hp) in Hs. by destruct Hs.
    - destruct (Hinst p Hs) as [Hpd _]. destruct (Hd2 p Hpd) as [_ Hin].
      apply Hdead in Hp as [_ Hp]. contradiction. }
  split.
  { intros p Hp Hin.
    assert (Hnd' : p ∉ dead) by (intros Hx; apply Hdead in Hx as [_ Hx]; contradiction).
    rewrite Hkeep; rewrite (Hmid p Hnd'); done. }
  split; [exact Hd2|]. split; [exact Hinst|].
  split.
  { intros p Hp. destruct (Hdom p Hp) as [Hs|Hs]; [|by right].
    left. destruct (decide (p ∈ dead)) as [Hx|Hx].
    - rewrite (Hgone p Hx) in Hs. by destruct Hs.
    - by rewrite <- (Hmid p Hx). }
  split; [exact Hnd|exact Hlen].
Qed.

(** ** The observer: the claims on an iteration *)

(** C7: in an iteration, with [dead] the pids that are tracked and absent from
    the snapshot, each listed once: the records of termination name exactly
    these pids; the session_end spans requested are, in the same order, one on
    the recorder of each dead pid that has one; all of this comes before the
    events of the new processes, which request no session_end span; the dead
    pids are not tracked afterwards; and the iteration ends normally whatever
    the sink answered to [end_session]. *)
Theorem dead_processes_finalized_once E snapshot obs tr :
  let tracked := discovered_processes obs in
  let current := pid <$> discover_claude_processes snapshot in
  let dead := elements (dom tracked ∖ list_to_set current) in
  exists obs' Dnew Dfin,
    poll E snapshot obs tr = (Ok tt, obs', Dnew ++ Dfin ++ tr)
    /\ NoDup dead
    /\ (forall p, p ∈ dead <-> is_Some (tracked !! p) /\ p ∉ current)
    /\ rev (terminated Dfin) = dead
    /\ rev (span_requests "session_end" Dfin) = omap (session_end_of tracked) dead
    /\ (forall p, p ∈ dead -> discovered_processes obs' !! p = None)
    /\ discovered Dfin = [] /\ instrumented Dfin = [] /\ constructed Dfin = []
    /\ terminated Dnew = [] /\ span_requests "session_end" Dnew = []
    /\ loop_errors (Dnew ++ Dfin) = [].
Proof.
  intros tracked current dead.
  destruct (poll_run E snapshot obs tr)
    as (obs' & Dnew & Dfin & Hrun & Ht & He & Hd & Hi & Hc & Ht' & He' & Hl & Hgone & _).
  exists obs', Dnew, Dfin.
  split; [exact Hrun|]. split; [apply NoDup_elements|].
  split.
  { intros p. subst dead. rewrite elem_of_elements, elem_of_difference, elem_of_dom,
      elem_of_list_to_set. reflexivity. }
  by repeat split.
Qed.

Lemma instrumented_app D2 D1 : instrumented (D2 ++ D1) = instrumented D2 ++ instrumented D1.
Proof. apply omap_app. Qed.

Lemma discovered_app D2 D1 : discovered (D2 ++ D1) = discovered D2 ++ discovered D1.
Proof. apply omap_app. Qed.

Lemma constructed_app D2 D1 : constructed (D2 ++ D1) = constructed D2 ++ constructed D1.
Proof. apply omap_app. Qed.

(** What one iteration does for the processes of its snapshot. *)
Lemma poll_discovery E snapshot obs tr :
  let m := discovered_processes obs in
  let current := pid <$> discover_claude_processes snapshot in
  exists obs' D,
    let m' := discovered_processes obs' in
    poll E snapshot obs tr = (Ok tt, obs', D ++ tr)
    /\ (forall p, is_Some (m !! p) -> p ∈ current -> m' !! p = m !! p)
    /\ (forall p, p ∈ discovered D -> m !! p = None /\ p ∈ current)
    /\ (forall p, p ∈ instrumented D ->
          p ∈ discovered D
          /\ exists proc', m' !! p = Some proc' /\ is_Some (logger_instance proc'))
    /\ (forall p, is_Some (m' !! p) -> is_Some (m !! p) \/ p ∈ instrumented D)
    /\ NoDup (instrumented D)
    /\ length (constructed D) = length (instrumented D).
Proof.
  intros m current.
  destruct (poll_run E snapshot obs tr)
    as (obs' & Dnew & Dfin & Hrun & _ & _ & Hd & Hi & Hc & _ & _ & _ & _ & Hkeep
        & Hdisc & Hinst & Hdom & Hnd & Hlen).
  exists obs', (Dnew ++ Dfin). cbn zeta.
  rewrite instrumented_app, discovered_app, constructed_app, Hd, Hi, Hc, !app_nil_r.
  split; [by rewrite <- app_assoc|].
  split; [exact Hkeep|]. split; [exact Hdisc|]. split; [exact Hinst|].
  split; [exact Hdom|]. split; [exact Hnd|exact Hlen].
Qed.

(** C8: over two consecutive iterations, a pid that is tracked after the
    first and is in the second snapshot keeps its record and is neither
    discovered nor instrumented at the second; what the second discovers was
    not tracked and is in its snapshot; a pid is tracked after it only if it
    was tracked before or its instrumentation succeeded, a recorder being
    built exactly for those; and no pid is instrumented twice over the two. *)
Theorem tracked_process_is_not_instrumented_again E snapshot1 snapshot2 obs tr :
  let current2 := pid <$> discover_claude_processes snapshot2 in
  exists obs1 D1 obs2 D2,
    let m1 := discovered_processes obs1 in
    let m2 := discovered_processes obs2 in
    poll E snapshot1 obs tr = (Ok tt, obs1, D1 ++ tr)
    /\ poll E snapshot2 obs1 (D1 ++ tr) = (Ok tt, obs2, D2 ++ D1 ++ tr)
    /\ (forall p, is_Some (m1 !! p) -> p ∈ current2 ->
          m2 !! p = m1 !! p /\ (p ∉ discovered D2) /\ (p ∉ instrumented D2))
    /\ (forall p, p ∈ discovered D2 -> m1 !! p = None /\ p ∈ current2)
    /\ (forall p, p ∈ instrumented D2 ->
          p ∈ discovered D2
          /\ exists proc', m2 !! p = Some proc' /\ is_Some (logger_instance proc'))
    /\ (forall p, is_Some (m2 !! p) -> is_Some (m1 !! p) \/ p ∈ instrumented D2)
    /\ length (constructed D2) = length (instrumented D2)
    /\ NoDup (instrumented (D2 ++ D1)).
Proof.
  intros current2.
  destruct (poll_discovery E snapshot1 obs tr)
    as (obs1 & D1 & Hrun1 & _ & _ & Hinst1 & _ & Hnd1 & _).
  destruct (poll_discovery E snapshot2 obs1 (D1 ++ tr))
    as (obs2 & D2 & Hrun2 & Hkeep & Hdisc & Hinst & Hdom & Hnd & Hlen).
  exists obs1, D1, obs2, D2. cbn zeta.
  split; [exact Hrun1|]. split; [exact Hrun2|].
  assert (Hnot : forall p, is_Some (discovered_processes obs1 !! p) -> p ∉ discovered D2).
  { intros p [x Hx] Hp. destruct (Hdisc p Hp) as [Hn _]. congruence. }
  split.
  { intros p Hp Hin. split; [by apply Hkeep|]. split; [by apply Hnot|].
    intros Hx. apply (Hnot p Hp). by apply Hinst. }
  split; [exact Hdisc|]. split; [exact Hinst|]. split; [exact Hdom|].
  split; [exact Hlen|].
  rewrite instrumented_app. apply NoDup_app. split; [exact Hnd|]. split; [|exact Hnd1].
  intros p Hp2 Hp1.
  destruct (Hinst1 p Hp1) as (_ & proc' & Hproc & _).
  apply (Hnot p); [by eexists|]. by apply Hinst.
Qed.

(** ** The status query *)

Lemma discover_uninstrumented snapshot proc :
  proc ∈ discover_claude_processes snapshot ->
  logger_instance proc = None /\ Observer.session_id proc = None.
Proof.
  induction snapshot as [|os rest IH];
    unfold discover_claude_processes; fold discover_claude_processes.
  - intros H. by apply elem_of_nil in H.
  - destruct (_is_claude_process (default [] (os_cmdline os)) (os_name os));
      [|exact IH].
    destruct (os_cwd os).
    all: intros [->|H]%elem_of_cons; [by split|by apply IH].
Qed.

Lemma register_all_run (procs : list ClaudeProcess) :
  forall obs tr,
    let m := discovered_processes obs in
    exists m',
      for_each procs
        (fun proc =>
           self <- get_self;;
           set_self (set_discovered (<[pid proc := proc]> (discovered_processes self)) self))
        obs tr
      = (Ok tt, set_discovered m' obs, tr)
      /\ (forall p, is_Some (m' !! p) <-> is_Some (m !! p) \/ p ∈ pid <$> procs)
      /\ (forall p proc, m' !! p = Some proc ->
            m !! p = Some proc \/ proc ∈ procs /\ pid proc = p).
Proof.
  induction procs as [|proc procs IH]; intros obs tr m.
  - exists m. split; [cbn; unfold ret; by destruct obs|].
    split; [|intros p proc Hp; by left].
    intros p. split; [by left|]. intros [H|H]; [done|by apply elem_of_nil in H].
  - set (obs1 := set_discovered (<[pid proc := proc]> m) obs).
    destruct (IH obs1 tr) as (m' & Hrun & Hdom & Hval).
    exists m'. split.
    { cbn [for_each]. unfold bind at 1. exact Hrun. }
    cbn in Hdom, Hval. split.
    + intros p. rewrite Hdom, fmap_cons, elem_of_cons.
      destruct (decide (pid proc = p)) as [<-|Hne].
      * rewrite lookup_insert_eq. split; [intros _; right; by left|by intros _; left].
      * rewrite lookup_insert_ne by done. split.
        -- intros [H|H]; [by left|right; by right].
        -- intros [H|[H|H]]; [by left|congruence|by right].
    + intros p proc' Hp. destruct (Hval p proc' Hp) as [H|[Hin Hpid]].
      * destruct (decide (pid proc = p)) as [<-|Hne].
        -- rewrite lookup_insert_eq in H. injection H as <-.
           right. split; [apply list_elem_of_here|reflexivity].
        -- rewrite lookup_insert_ne in H by done. by left.
      * right. split; [by apply list_elem_of_further|exact Hpid].
Qed.

Lemma filter_none_nil {A} (P : A -> Prop) `{forall x, Decision (P x)} (l : list A) :
  (forall x, x ∈ l -> ~ P x) -> filter P l = [].
Proof.
  induction l as [|x l IH]; intros Hl; [reflexivity|].
  rewrite filter_cons_False by (apply Hl, list_elem_of_here).
  apply IH. intros y Hy. by apply Hl, list_elem_of_further.
Qed.

Lemma status_run E snapshot obs tr :
  let m := discovered_processes obs in
  let procs := discover_claude_processes snapshot in
  exists res m',
    status E snapshot obs tr = (Ok res, set_discovered m' obs, tr)
    /\ (size m = 0%nat ->
          (forall p, is_Some (m' !! p) <-> p ∈ pid <$> procs)
          /\ (forall p proc, m' !! p = Some proc ->
                proc ∈ procs /\ pid proc = p
                /\ logger_instance proc = None /\ Observer.session_id proc = None)
          /\ dict_get "instrumented_processes" res = Some (VInt 0))
    /\ (size m <> 0%nat -> m' = m).
Proof.
  intros m procs. unfold status. unfold bind at 1. unfold get_self at 1. fold m.
  destruct (bool_decide (size m = 0%nat)) eqn:Hsz.
  - apply bool_decide_eq_true in Hsz.
    destruct (register_all_run procs obs tr) as (m' & Hrun & Hdom & Hval).
    fold procs. unfold bind at 1. rewrite Hrun.
    eexists _, m'. split; [reflexivity|].
    assert (Hempty : forall p, m !! p = None).
    { intros p. apply map_size_empty_iff in Hsz. fold m in Hsz.
      rewrite Hsz. apply lookup_empty. }
    split; [|intros Hne; contradiction].
    intros _.
    assert (Hall : forall p proc, m' !! p = Some proc ->
              proc ∈ procs /\ pid proc = p
              /\ logger_instance proc = None /\ Observer.session_id proc = None).
    { intros p proc Hp. destruct (Hval p proc Hp) as [H|[Hin Hpid]].
      - cbn in H. fold m in H. by rewrite Hempty in H.
      - split; [exact Hin|]. split; [exact Hpid|].
        by apply (discover_uninstrumented snapshot). }
    split.
    { intros p. rewrite Hdom. cbn. fold m. rewrite Hempty. split.
      - intros [[x Hx]|H]; [discriminate|exact H].
      - intros H. by right. }
    split; [exact Hall|].
    cbn. rewrite filter_none_nil; [reflexivity|].
    intros proc Hin [l Hl].
    apply list_elem_of_fmap in Hin as ([p proc'] & -> & Hin).
    apply elem_of_map_to_list in Hin.
    destruct (Hall p proc' Hin) as (_ & _ & Hnone & _).
    cbn in Hl. congruence.
  - apply bool_decide_eq_false in Hsz.
    eexists _, m. split; [cbn; unfold_py; fold m; by destruct obs|].
    split; [intros; contradiction|reflexivity].
Qed.

(** ** The dashboard address *)

Lemma append_empty_inv (s1 s2 : string) : s1 +:+ s2 = "" -> s1 = "" /\ s2 = "".
Proof.
  destruct s1 as [|c s1]; unfold String.append; fold String.append;
    [by intros ->|discriminate].
Qed.

Lemma trace_url_not_empty host project tid :
  host +:+ "/project/" +:+ project +:+ "/traces/" +:+ tid <> "".
Proof.
  intros H. apply append_empty_inv in H as [_ H].
  unfold String.append in H. discriminate.
Qed.

(** X1: [get_trace_url] prefers a non-empty explicit trace id over the one
    that the recorder holds, treats an empty explicit id as missing, and
    returns the empty string exactly when neither id is usable; the recorder
    is only read for its trace id. *)
Theorem trace_url_prefers_explicit_id E tid self :
  let url id :=
    default "http://localhost:3001" (getenv E "LANGFUSE_HOST") +:+ "/project/"
      +:+ default "default" (getenv E "LANGFUSE_PROJECT_ID") +:+ "/traces/" +:+ id in
  get_trace_url E tid self
  = (if truthy_str tid then url (default "" tid)
     else if truthy_str (current_trace_id self) then url (default "" (current_trace_id self))
     else "")
  /\ (get_trace_url E tid self = ""
      <-> truthy_str tid = false /\ truthy_str (current_trace_id self) = false)
  /\ get_trace_url E (Some "") self = get_trace_url E None self
  /\ (forall other, current_trace_id other = current_trace_id self ->
        get_trace_url E tid other = get_trace_url E tid self).
Proof.
  intros url. unfold get_trace_url.
  split; [|split; [|split]].
  - destruct (truthy_str tid) eqn:Ht; [by rewrite Ht|].
    by destruct (truthy_str (current_trace_id self)).
  - destruct (truthy_str tid) eqn:Ht.
    + rewrite Ht. split; [|by intros [? _]].
      intros H. by apply trace_url_not_empty in H.
    + destruct (truthy_str (current_trace_id self)) eqn:Hc; [|done].
      split; [|by intros [_ ?]].
      intros H. by apply trace_url_not_empty in H.
  - reflexivity.
  - intros other Ho. by rewrite Ho.
Qed.

(** ** Building a recorder *)

(** X2: with a non-empty configuration dictionary the client is built from
    it alone: a missing [public_key], and then a missing [secret_key],
    raises the [KeyError] of that key before anything is built; an empty
    dictionary counts as no configuration, and the client is built from the
    environment. *)
Theorem init_langfuse_needs_both_keys {O} E (cfg : option config) (o : O) tr :
  _init_langfuse E cfg o tr
  = match cfg with
    | Some (kv :: c) =>
        match config_get "public_key" (kv :: c), config_get "secret_key" (kv :: c) with
        | None, _ => (Exn "'public_key'", o, tr)
        | Some _, None => (Exn "'secret_key'", o, tr)
        | Some pk, Some sk =>
            new_client E (default "http://localhost:3001" (config_get "host" (kv :: c)))
              (Some pk) (Some sk) o tr
        end
    | _ =>
        new_client E (default "http://localhost:3001" (getenv E "LANGFUSE_HOST"))
          (getenv E "LANGFUSE_PUBLIC_KEY") (getenv E "LANGFUSE_SECRET_KEY") o tr
    end
  /\ (forall uid sid,
        match cfg with
        | Some (kv :: c) =>
            match config_get "public_key" (kv :: c), config_get "secret_key" (kv :: c) with
            | Some _, Some _ => True
            | _, _ =>
                exists e D,
                  Logger.__init__ E uid sid cfg o tr = (Exn e, o, D ++ tr)
                  /\ constructions D = [] /\ remote_calls D = []
            end
        | _ => True
        end).
Proof.
  split.
  - destruct cfg as [[|kv c]|]; try reflexivity.
    unfold _init_langfuse, config_item.
    destruct (config_get "public_key" (kv :: c)) as [pk|]; [|reflexivity].
    destruct (config_get "secret_key" (kv :: c)) as [sk|]; reflexivity.
  - intros uid sid. destruct cfg as [[|kv c]|]; try exact I.
    destruct (config_get "public_key" (kv :: c)) as [pk|] eqn:Hpk;
      [destruct (config_get "secret_key" (kv :: c)) as [sk|] eqn:Hsk; [exact I|]|].
    + unfold Logger.__init__, _init_langfuse, config_item. rewrite Hpk, Hsk.
      destruct (truthy_str sid); unfold_py; cbn;
        eexists _, _; (split; [give_delta|]); split; reflexivity.
    + unfold Logger.__init__, _init_langfuse, config_item. rewrite Hpk.
      destruct (truthy_str sid); unfold_py; cbn;
        eexists _, _; (split; [give_delta|]); split; reflexivity.
Qed.

(** What a recorder is after [ClaudeCodeLogger(uid, sid, cfg)] returned. *)
Lemma init_result {O} E uid sid cfg (o o' : O) tr tr' l :
  Logger.__init__ E uid sid cfg o tr = (Ok l, o', tr') ->
  user_id l = (if truthy_str uid then default "" uid
               else default "anonymous" (getenv E "CLAUDE_USER_ID"))
  /\ Logger.session_id l
     = (if truthy_str sid then default "" sid
        else "claude_session_" +:+ pretty (Qfloor (clock E tr)))
  /\ interaction_count l = 0
  /\ current_trace_id l = None.
Proof.
  unfold Logger.__init__.
  destruct (truthy_str sid) eqn:Hs; unfold bind at 1; unfold_py; cbn.
  - destruct (_init_langfuse E cfg o _) as [[[h|e] o1] tr1]; [|discriminate].
    intros [= <- <- <-]. by repeat split.
  - destruct (_init_langfuse E cfg o _) as [[[h|e] o1] tr1]; [|discriminate].
    intros [= <- <- <-]. by repeat split.
Qed.

(** ** The recorder as a context manager *)

(** X3: in [with logger: body] the session is started before the body and
    ended after it on the recorder as the body left it, once, whether the
    body returned or raised; the outcome of the statement is the outcome of
    the body, so that its exception is raised again. *)
Theorem with_statement_always_ends_session {A} E (body : @M ClaudeCodeLogger A) self tr :
  exists self1 D1,
    start_session E None self tr = (Ok (Logger.session_id self), self1, D1 ++ tr)
    /\ exists res D2,
         let out := body self1 (D1 ++ tr) in
         with_logger E body self tr = (out.1.1, out.1.2, D2 ++ out.2)
         /\ end_session E None out.1.2 out.2 = (Ok res, out.1.2, D2 ++ out.2)
         /\ span_requests "session_end" D2 = [langfuse out.1.2].
Proof.
  destruct (start_session_quiet E None self tr) as (self1 & D1 & Hstart & _).
  exists self1, D1. split; [exact Hstart|].
  destruct (body self1 (D1 ++ tr)) as [[r self2] tr2] eqn:Hbody.
  destruct (end_session_quiet E None self2 tr2) as (res & D2 & Hend & Hreq & _).
  exists res, D2. cbn [fst snd]. split; [|split; [exact Hend|exact Hreq]].
  unfold with_logger, __enter__, Logger.__exit__.
  unfold bind at 1. unfold bind at 1. rewrite Hstart. unfold ret at 1.
  rewrite Hbody. unfold bind. rewrite Hend. reflexivity.
Qed.

(** X4: [quick_log] builds one recorder from the environment, names the
    session after the clock, and returns the result of the first interaction
    of that session; the session is ended once, on the client that was
    built.  It raises only when the client cannot be built, and then no
    call reaches a client. *)
Theorem quick_log_is_one_whole_session {O} E prompt response tools (o : O) tr :
  let sid := "claude_session_" +:+ pretty (Qfloor (clock E tr)) in
  exists D,
    (exists res h,
        quick_log E prompt response tools o tr = (Ok res, o, D ++ tr)
        /\ dict_get "interaction_id" res = Some (VStr (sid +:+ "_1"))
        /\ constructed D = [h]
        /\ span_requests "session_end" D = [h])
    \/ (exists e,
          quick_log E prompt response tools o tr = (Exn e, o, D ++ tr)
          /\ constructed D = []
          /\ span_requests "session_end" D = []).
Proof.
  intros sid. unfold quick_log.
  destruct (init_run E None None None o tr) as (D0 & Hinit & Hend0 & _).
  destruct Hinit as [(l & Hrun & Hcount & Htid & _ & _ & Hcons)|(e & Hrun & Hcons)].
  - destruct (init_result E None None None o o tr (D0 ++ tr) l Hrun)
      as (_ & Hsid & _).
    change (truthy_str None) with false in Hsid. cbv iota in Hsid.
    destruct (start_session_run E None l (D0 ++ tr))
      as (l1 & D1 & Hstart & _ & _ & Hl1 & _).
    destruct (start_session_quiet E None l (D0 ++ tr))
      as (l1' & D1' & Hstart' & Hend1 & Hcons1 & _).
    rewrite Hstart in Hstart'. injection Hstart' as <- HD.
    apply app_inv_tail in HD as <-.
    destruct (log_interaction_run E prompt response tools None None l1 (D1 ++ D0 ++ tr))
      as (res & D2 & Hlog & _ & _ & Hend2 & Honly2 & Hres).
    destruct (end_session_quiet E None
                (set_interaction_count (interaction_count l1 + 1) l1)
                (D2 ++ D1 ++ D0 ++ tr))
      as (stats & D3 & Hfin & Hend3 & Hcons3 & _).
    exists (D3 ++ D2 ++ D1 ++ D0). left. exists res, (langfuse l).
    assert (Hl : Logger.session_id l1 = Logger.session_id l
                 /\ interaction_count l1 = 0 /\ langfuse l1 = langfuse l).
    { destruct Hl1 as [->|(r & -> & _)]; by repeat split. }
    destruct Hl as (Hs1 & Hc1 & Hh1).
    split; [|split; [|split]].
    + unfold bind at 1. rewrite Hrun.
      unfold bind at 1. unfold on_object at 1. rewrite Hstart. cbn [fst snd].
      unfold bind at 1. unfold on_object at 1. rewrite Hlog. cbn [fst snd].
      unfold bind at 1. unfold on_object at 1. rewrite Hfin. unfold ret.
      by rewrite <- !app_assoc.
    + destruct Hres as [[(tid & ->) _]|(e & -> & _)];
        unfold interaction_result, interaction_error; cbn [dict_get String.eqb];
        cbn; rewrite Hs1, Hc1, Hsid; reflexivity.
    + rewrite !constructed_app, Hcons3, Hcons1, Hcons.
      destruct Honly2 as (Hc2 & _).
      assert (constructed D2 = []) as ->; [|done].
      clear -Hc2. induction D2 as [|[] D IH]; cbn in *; try done; auto.
    + unfold span_requests in *. rewrite !omap_app, Hend3, Hend2, Hend1, Hend0.
      cbn. by rewrite Hh1.
  - exists D0. right. exists e. split; [|split; [exact Hcons|exact Hend0]].
    unfold bind at 1. by rewrite Hrun.
Qed.

(** ** Which processes are discovered *)

(** X5: a process counts as a Claude Code process exactly when its command
    line is not empty and either starts with [claude] while no argument
    contains [claude-flow], or the process is named [claude]; with an empty
    command line the name does not matter. *)
Theorem claude_process_needs_a_command_line (cmdline : list string) (name : option string) :
  (_is_claude_process cmdline name = true
   <-> cmdline <> []
       /\ (head cmdline = Some "claude"
             /\ (forall arg, arg ∈ cmdline -> contains "claude-flow" arg = false)
           \/ name = Some "claude"))
  /\ _is_claude_process [] name = false.
Proof.
  split; [|reflexivity].
  destruct cmdline as [|arg0 args]; [split; [discriminate|by intros [? _]]|].
  unfold _is_claude_process.
  destruct (String.eqb arg0 "claude" && negb (existsb (contains "claude-flow") (arg0 :: args)))
    eqn:Hmain.
  - split; [|done]. intros _. split; [done|]. left.
    apply andb_true_iff in Hmain as [Ha Hflow].
    apply String.eqb_eq in Ha as ->. split; [reflexivity|].
    intros arg Hin. apply negb_true_iff in Hflow.
    destruct (contains "claude-flow" arg) eqn:Hc; [|reflexivity].
    assert (existsb (contains "claude-flow") ("claude" :: args) = true); [|congruence].
    apply existsb_exists. exists arg. split; [by apply list_elem_of_In|exact Hc].
  - split.
    + intros Hn. split; [done|]. right.
      destruct name as [n|]; [|discriminate]. by apply String.eqb_eq in Hn as ->.
    + intros [_ [[Hhead Hflow]| ->]]; [|reflexivity].
      exfalso. cbn in Hhead. injection Hhead as ->.
      apply andb_false_iff in Hmain as [Hmain|Hmain]; [discriminate|].
      apply negb_false_iff, existsb_exists in Hmain as (arg & Hin & Hc).
      apply list_elem_of_In in Hin. rewrite (Hflow arg Hin) in Hc. discriminate.
Qed.

(** The record that discovery builds for an entry. *)
Lemma discover_cons os rest :
  discover_claude_processes (os :: rest)
  = (if _is_claude_process (default [] (os_cmdline os)) (os_name os) then
       [ {| pid := os_pid os; cmdline := default [] (os_cmdline os);
            terminal := _extract_terminal os; start_time := os_create_time os;
            working_directory := match os_cwd os with Cwd d => d | _ => None end;
            session_id := None; logger_instance := None |} ]
     else []) ++ discover_claude_processes rest.
Proof.
  unfold discover_claude_processes; fold discover_claude_processes.
  destruct (_is_claude_process _ _); [|reflexivity].
  by destruct (os_cwd os).
Qed.

(** X6: discovery keeps, in the order of the snapshot, one record for each
    entry that is a Claude Code process, and nothing else: the record has
    the pid, command line, start time and terminal of the entry, and
    neither a session id nor a recorder.  Its working directory is the one
    read; it is missing when reading it raised, also for a zombie, which is
    kept like any other process.  An entry whose command line is missing or
    empty is never kept. *)
Theorem discovery_keeps_every_claude_process (snapshot : list os_process) :
  let found os :=
    {| pid := os_pid os; cmdline := default [] (os_cmdline os);
       terminal := _extract_terminal os; start_time := os_create_time os;
       working_directory := match os_cwd os with Cwd d => d | _ => None end;
       session_id := None; logger_instance := None |} in
  discover_claude_processes snapshot
  = found <$> filter (fun os => _is_claude_process (default [] (os_cmdline os)) (os_name os)
                                = true) snapshot
  /\ (forall proc,
        proc ∈ discover_claude_processes snapshot
        <-> exists os,
              os ∈ snapshot
              /\ _is_claude_process (default [] (os_cmdline os)) (os_name os) = true
              /\ proc = found os)
  /\ sublist (pid <$> discover_claude_processes snapshot) (os_pid <$> snapshot)
  /\ (forall proc, proc ∈ discover_claude_processes snapshot -> cmdline proc <> []).
Proof.
  intros found.
  assert (Heq : discover_claude_processes snapshot
                = found <$> filter (fun os => _is_claude_process (default [] (os_cmdline os))
                                                (os_name os) = true) snapshot).
  { induction snapshot as [|os rest IH]; [reflexivity|].
    rewrite discover_cons, IH.
    destruct (_is_claude_process (default [] (os_cmdline os)) (os_name os)) eqn:Hc.
    - by rewrite filter_cons_True.
    - rewrite filter_cons_False; [reflexivity|]. by rewrite Hc. }
  assert (Hchar : forall proc,
            proc ∈ discover_claude_processes snapshot
            <-> exists os,
                  os ∈ snapshot
                  /\ _is_claude_process (default [] (os_cmdline os)) (os_name os) = true
                  /\ proc = found os).
  { intros proc. rewrite Heq, list_elem_of_fmap. split.
    - intros (os & -> & [Hc Hin]%list_elem_of_filter). by exists os.
    - intros (os & Hin & Hc & ->). exists os. split; [reflexivity|].
      by apply list_elem_of_filter. }
  split; [exact Heq|]. split; [exact Hchar|]. split.
  - clear Heq Hchar. induction snapshot as [|os rest IH]; [constructor|].
    rewrite discover_cons, fmap_app, fmap_cons.
    destruct (_is_claude_process _ _); [|by apply sublist_cons].
    cbn [fmap list_fmap app]. by apply sublist_skip.
  - intros proc (os & _ & Hclaude & ->)%Hchar. cbn.
    intros Hnil. rewrite Hnil in Hclaude. discriminate.
Qed.

(** ** The status query *)

(** X7: the status query adds no event to the trace and never raises.  When
    nothing is tracked it tracks exactly the processes found in the snapshot,
    each as found, with no recorder and no session id, and reports none as
    instrumented; otherwise the tracked set is unchanged.  In an iteration of
    the monitor that follows, a pid tracked after the query is neither
    discovered nor instrumented, and keeps its record while it is in the
    snapshot. *)
Theorem status_registers_without_instrumenting E snapshot obs tr :
  let m := discovered_processes obs in
  let found := discover_claude_processes snapshot in
  exists res obs',
    let m' := discovered_processes obs' in
    status E snapshot obs tr = (Ok res, obs', tr)
    /\ running obs' = running obs
    /\ (if bool_decide (size m = 0%nat) then
          (forall p, is_Some (m' !! p) <-> p ∈ pid <$> found)
          /\ (forall p proc, m' !! p = Some proc ->
                proc ∈ found /\ pid proc = p
                /\ logger_instance proc = None /\ Observer.session_id proc = None)
          /\ dict_get "instrumented_processes" res = Some (VInt 0)
        else m' = m)
    /\ (forall snapshot2, exists obs'' D,
          poll E snapshot2 obs' tr = (Ok tt, obs'', D ++ tr)
          /\ forall p, is_Some (m' !! p) ->
               (p ∉ discovered D) /\ (p ∉ instrumented D)
               /\ (p ∈ pid <$> discover_claude_processes snapshot2 ->
                   discovered_processes obs'' !! p = m' !! p)).
Proof.
  intros m found.
  destruct (status_run E snapshot obs tr) as (res & m' & Hrun & Hempty & Hkeep).
  exists res, (set_discovered m' obs). cbn zeta.
  split; [exact Hrun|]. split; [reflexivity|]. split.
  - destruct (bool_decide (size m = 0%nat)) eqn:Hsz.
    + apply bool_decide_eq_true in Hsz. by apply Hempty.
    + apply bool_decide_eq_false in Hsz. by apply Hkeep.
  - intros snapshot2.
    destruct (poll_discovery E snapshot2 (set_discovered m' obs) tr)
      as (obs'' & D & Hpoll & Hsame & Hdisc & Hinst & _).
    exists obs'', D. split; [exact Hpoll|].
    intros p Hp.
    assert (Hnot : p ∉ discovered D).
    { intros Hx. destruct (Hdisc p Hx) as [Hn _]. rewrite Hn in Hp. by destruct Hp. }
    split; [exact Hnot|]. split; [|by apply Hsame].
    intros Hx. apply Hnot. by apply Hinst.
Qed.

(** The dictionary that the status query returns. *)
Lemma status_result E snapshot obs tr :
  exists m',
    let procs := snd <$> map_to_list m' in
    status E snapshot obs tr
    = (Ok [("total_processes", VInt (Z.of_nat (size m')));
           ("instrumented_processes",
            VInt (Z.of_nat (length (filter (fun p => is_Some (logger_instance p)) procs))));
           ("processes", VList (proc_status E <$> procs))],
       set_discovered m' obs, tr).
Proof.
  unfold status. unfold bind at 1. unfold get_self at 1.
  destruct (bool_decide (size (discovered_processes obs) = 0%nat)).
  - destruct (register_all_run (discover_claude_processes snapshot) obs tr)
      as (m' & Hrun & _).
    exists m'. unfold bind at 1. rewrite Hrun. reflexivity.
  - exists (discovered_processes obs). cbn. unfold_py. by destruct obs.
Qed.

(** X8: on a new observer, which is how the [--status] command line runs
    it, the status query tracks the pids found in the snapshot and reports
    their number, and reports every one of them as not instrumented, with
    no session id and no dashboard address. *)
Theorem status_of_new_observer_reports_nothing_instrumented E snapshot tr :
  exists res m' entries,
    status E snapshot new_observer tr = (Ok res, set_discovered m' new_observer, tr)
    /\ (forall p, is_Some (m' !! p) <-> p ∈ pid <$> discover_claude_processes snapshot)
    /\ dict_get "total_processes" res = Some (VInt (Z.of_nat (size m')))
    /\ dict_get "instrumented_processes" res = Some (VInt 0)
    /\ dict_get "processes" res = Some (VList entries)
    /\ length entries = size m'
    /\ Forall (fun entry =>
                 exists d, entry = VDict d
                   /\ dict_get "instrumented" d = Some (VBool false)
                   /\ dict_get "session_id" d = Some VNone
                   /\ dict_get "trace_url" d = Some VNone) entries.
Proof.
  destruct (status_run E snapshot new_observer tr) as (res & m' & Hrun & Hempty & _).
  destruct (status_result E snapshot new_observer tr) as (m'' & Hres).
  cbn zeta in Hres. rewrite Hrun in Hres. injection Hres as -> <-.
  destruct Hempty as (Hdom & Hall & Hzero); [reflexivity|].
  eexists _, m', _. split; [exact Hrun|]. split; [exact Hdom|].
  split; [reflexivity|]. split; [exact Hzero|]. split; [reflexivity|].
  split; [by rewrite !length_fmap, length_map_to_list|].
  apply Forall_fmap, Forall_fmap, Forall_forall. intros [p proc] Hin.
  apply elem_of_map_to_list in Hin.
  destruct (Hall p proc Hin) as (_ & _ & Hlog & Hsid).
  cbn. unfold proc_status. rewrite Hlog, Hsid. eexists. split; [reflexivity|].
  by repeat split.
Qed.

(** ** Detecting the terminal *)

(** With no environment variable set and no tty, the value is the pid token:
    not a result of one of the four probes, and not a fallback. *)
Lemma detect_terminal_returns_pid_token :
  ~ detect_terminal_as_claimed Examples.quiet_env 7
      (SessionManager._detect_terminal Examples.quiet_env 7).
Proof.
  intros [H|(_ & [H|H])]; vm_compute in H; discriminate.
Qed.

Lemma first_result_last probes t otherwise :
  truthy_str (Some t) = true ->
  SessionManager.first_result (probes ++ [Some (Some t)]) otherwise
  = default t (first_non_empty probes).
Proof.
  intros Ht. induction probes as [|[[s|]|] rest IH]; cbn [app SessionManager.first_result first_non_empty].
  - by rewrite Ht.
  - change (truthy_str (Some s)) with (negb (String.eqb s "")).
    by destruct (String.eqb s "").
  - exact IH.
  - exact IH.
Qed.

Lemma first_result_pid_token E pid otherwise :
  SessionManager.first_result (SessionManager.terminal_methods E pid) otherwise
  = default ("pid_" +:+ pretty pid) (first_non_empty (four_probes E)).
Proof.
  change (SessionManager.terminal_methods E pid)
    with (four_probes E ++ [Some (Some ("pid_" +:+ pretty pid))]).
  by apply first_result_last.
Qed.

Lemma first_non_empty_not_empty probes s : first_non_empty probes = Some s -> s <> "".
Proof.
  induction probes as [|[[s'|]|] rest IH]; cbn [first_non_empty]; try done.
  destruct (String.eqb s' "") eqn:Hs; [exact IH|].
  intros [= ->] ->. discriminate.
Qed.

(** X9: [_detect_terminal] tries the terminal session id, the pane id, the
    window id, the tty name and then the pid token, in this order, skipping
    a probe that raises, and returns the first non-empty result; the pid
    token is never empty, so that the value never depends on the
    fall-through and is never the empty string.  [_extract_terminal] of the
    observer returns the terminal of the process when it is non-empty,
    ["term_<pid>"] when it is empty, and ["unknown_<pid>"] when the probe
    raises: it is never empty either. *)
Theorem detect_terminal_priority :
  (forall E pid,
      SessionManager._detect_terminal E pid
      = default ("pid_" +:+ pretty pid) (first_non_empty (four_probes E))
      /\ SessionManager._detect_terminal E pid <> "")
  /\ (forall E pid otherwise,
        SessionManager.first_result (SessionManager.terminal_methods E pid) otherwise
        = SessionManager._detect_terminal E pid)
  /\ (forall proc,
        _extract_terminal proc
        = match os_terminal proc with
          | Some (Some s) =>
              if String.eqb s "" then "term_" +:+ pretty (os_pid proc) else s
          | Some None => "term_" +:+ pretty (os_pid proc)
          | None => "unknown_" +:+ pretty (os_pid proc)
          end
        /\ _extract_terminal proc <> "").
Proof.
  split; [|split].
  - intros E pid. unfold SessionManager._detect_terminal.
    rewrite first_result_pid_token. split; [reflexivity|].
    destruct (first_non_empty (four_probes E)) as [s|] eqn:Hs; cbn.
    + by apply first_non_empty_not_empty in Hs.
    + unfold String.append. discriminate.
  - intros E pid otherwise. unfold SessionManager._detect_terminal.
    by rewrite !first_result_pid_token.
  - intros proc. unfold _extract_terminal.
    destruct (os_terminal proc) as [[s|]|];
      try (split; [reflexivity|unfold String.append; discriminate]).
    change (truthy_str (Some s)) with (negb (String.eqb s "")).
    destruct (String.eqb s "") eqn:Hs; cbn.
    + split; [reflexivity|unfold String.append; discriminate].
    + split; [reflexivity|]. intros ->. discriminate.
Qed.

(** ** Session ids of discovered processes *)

Lemma contains_slash_cons c s :
  contains "/" (String c s) = Ascii.eqb c "/" || contains "/" s.
Proof.
  unfold contains. cbn [String.index String.prefix].
  destruct (ascii_dec "/" c) as [<-|Hne].
  - by destruct s.
  - rewrite (proj2 (Ascii.eqb_neq c "/")) by congruence. cbn [orb].
    by destruct (String.index 0 "/" s).
Qed.

Lemma append_cons c (s1 s2 : string) : String c s1 +:+ s2 = String c (s1 +:+ s2).
Proof. reflexivity. Qed.

Lemma append_nil_l (s : string) : "" +:+ s = s.
Proof. reflexivity. Qed.

Lemma append_snoc (acc : string) c s : (acc +:+ String c "") +:+ s = acc +:+ String c s.
Proof.
  induction acc as [|a acc IH]; [reflexivity|].
  by rewrite !append_cons, IH.
Qed.

Lemma contains_slash_app (s1 s2 : string) :
  contains "/" (s1 +:+ s2) = contains "/" s1 || contains "/" s2.
Proof.
  induction s1 as [|c s1 IH]; [reflexivity|].
  by rewrite append_cons, !contains_slash_cons, IH, orb_assoc.
Qed.

Lemma last_segment_from_no_slash acc s :
  contains "/" s = false -> last_segment_from acc s = acc +:+ s.
Proof.
  revert acc. induction s as [|c s IH]; intros acc Hs.
  - cbn [last_segment_from]. clear. induction acc as [|a acc IH]; [reflexivity|].
    by rewrite append_cons, <- IH.
  - rewrite contains_slash_cons in Hs. apply orb_false_iff in Hs as [Hc Hs].
    cbn [last_segment_from]. rewrite Hc, IH by done. apply append_snoc.
Qed.

Lemma last_segment_from_has_no_slash acc s :
  contains "/" acc = false -> contains "/" (last_segment_from acc s) = false.
Proof.
  revert acc. induction s as [|c s IH]; intros acc Hacc; [exact Hacc|].
  cbn [last_segment_from]. destruct (Ascii.eqb c "/") eqn:Hc.
  - by apply IH.
  - apply IH. rewrite contains_slash_app, Hacc, contains_slash_cons, Hc. reflexivity.
Qed.

Lemma after_github_some parts s :
  after_github parts = Some s ->
  existsb (String.eqb "github") parts = true /\ (2 <=? length parts)%nat = true.
Proof.
  induction parts as [|p rest IH]; [discriminate|].
  cbn [after_github existsb]. rewrite (String.eqb_sym "github" p).
  destruct (String.eqb p "github"); cbn [orb].
  - destruct rest; [discriminate|]. by intros _.
  - intros H. destruct (IH H) as [He Hl]. split; [exact He|].
    destruct rest as [|? [|? ?]]; try discriminate; reflexivity.
Qed.

(** X10: the session id of a discovered process is ["claude_"], the project,
    the last segment of the terminal, the start time and the pid, joined by
    underscores; the terminal part never contains a slash.  The project is
    ["unknown"] without a working directory and also when [github] is the
    last part of the path, where the project name of the metadata is the
    name of the directory instead; when a part follows [github], the session
    id and the metadata name the same project. *)
Theorem session_id_of_discovered_process E proc :
  exists project,
    _generate_session_id E proc
    = "claude_" +:+ project +:+ "_" +:+ last_segment (terminal proc) +:+ "_"
        +:+ strftime E (Observer.start_time proc) +:+ "_" +:+ pretty (pid proc)
    /\ contains "/" (last_segment (terminal proc)) = false
    /\ (truthy_str (working_directory proc) = false ->
          project = "unknown"
          /\ _extract_project_info E (working_directory proc) = ("unknown", "unknown"))
    /\ (forall wd, working_directory proc = Some wd -> wd <> "" ->
          match after_github (path_parts E wd) with
          | Some s =>
              project = s
              /\ forall shown, path_from_home E wd = inr shown ->
                   _extract_project_info E (Some wd) = (s, shown)
          | None =>
              ("github" ∈ path_parts E wd ->
                 (2 <= length (path_parts E wd))%nat -> project = "unknown")
              /\ forall shown, path_from_home E wd = inr shown ->
                   _extract_project_info E (Some wd) = (path_name E wd, shown)
          end).
Proof.
  assert (Hterm : (if contains "/" (terminal proc) then last_segment (terminal proc)
                   else terminal proc) = last_segment (terminal proc)).
  { destruct (contains "/" (terminal proc)) eqn:Hc; [reflexivity|].
    unfold last_segment. by rewrite last_segment_from_no_slash. }
  unfold _generate_session_id. rewrite Hterm.
  eexists. split; [reflexivity|].
  split; [by apply last_segment_from_has_no_slash|].
  split.
  - destruct (working_directory proc) as [wd|]; [|by intros _].
    change (truthy_str (Some wd)) with (negb (String.eqb wd "")).
    destruct (String.eqb wd "") eqn:Hwd; [|discriminate]. intros _.
    unfold _extract_project_info. by rewrite Hwd.
  - intros wd -> Hne.
    apply String.eqb_neq in Hne. rewrite Hne.
    unfold _extract_project_info. rewrite Hne.
    destruct (after_github (path_parts E wd)) as [s|] eqn:Hgh.
    + destruct (after_github_some _ _ Hgh) as [Hex Hlen]. rewrite Hex, Hlen.
      split; [reflexivity|]. intros shown ->. reflexivity.
    + split.
      * intros Hin Hlen. apply Nat.leb_le in Hlen. rewrite Hlen.
        assert (existsb (String.eqb "github") (path_parts E wd) = true) as ->; [|done].
        apply existsb_exists. exists "github".
        split; [by apply list_elem_of_In|apply String.eqb_refl].
      * intros shown ->. by destruct (existsb _ _).
Qed.

(** ** The registry file *)

Lemma dict_get_of_registry {A} (f : A -> value) (l : list (Z * A)) p :
  NoDup l.*1 ->
  dict_get (pretty p) ((fun kv : Z * A => (pretty kv.1, f kv.2)) <$> l)
  = f <$> (list_to_map l : gmap Z A) !! p.
Proof.
  induction l as [|[k v] l IH]; intros Hnd; [done|].
  apply NoDup_cons in Hnd as [Hk Hnd].
  cbn [fmap list_fmap dict_get fst snd list_to_map foldr].
  destruct (String.eqb (pretty p) (pretty k)) eqn:Heq.
  - apply String.eqb_eq, (inj pretty) in Heq as ->. by rewrite lookup_insert_eq.
  - rewrite lookup_insert_ne; [by apply IH|].
    intros ->. by rewrite String.eqb_refl in Heq.
Qed.

(** X11: saving the registry never raises and leaves the observer as it
    is, also when the file cannot be written, which is logged.  The data
    holds one entry for each tracked process under the decimal pid, with
    distinct keys; an entry says whether the process has a recorder. *)
Theorem registry_has_one_entry_per_tracked_process E obs tr :
  let m := discovered_processes obs in
  exists data,
    save_registry E obs tr
    = (Ok tt, obs,
       match registry_write E tr with
       | Some e => [Log ERROR (RegistryFailed e)]
       | None => []
       end ++ SaveRegistry data (registry_write E tr) :: tr)
    /\ length data = size m
    /\ NoDup data.*1
    /\ (forall p, dict_get (pretty p) data = registry_entry <$> m !! p)
    /\ (forall p proc, m !! p = Some proc ->
          exists d, dict_get (pretty p) data = Some (VDict d)
            /\ dict_get "instrumented" d
               = Some (VBool (bool_decide (is_Some (logger_instance proc))))
            /\ dict_get "session_id" d = Some (of_opt_str (Observer.session_id proc))).
Proof.
  intros m.
  assert (Hget : forall p,
    dict_get (pretty p)
      ((fun kv : Z * ClaudeProcess => (pretty kv.1, registry_entry kv.2))
         <$> map_to_list m)
    = registry_entry <$> m !! p).
  { intros p. rewrite (dict_get_of_registry registry_entry)
      by apply NoDup_fst_map_to_list.
    by rewrite list_to_map_to_list. }
  eexists. split.
  { unfold save_registry. unfold_py. cbn. fold m.
    destruct (registry_write E tr); reflexivity. }
  split; [by rewrite length_fmap, length_map_to_list|].
  split.
  { rewrite <- list_fmap_compose.
    apply (NoDup_fmap_2_strong _). 2: apply NoDup_map_to_list.
    intros [p1 x1] [p2 x2] H1 H2 Heq. cbn in Heq.
    apply (inj pretty) in Heq as ->.
    apply elem_of_map_to_list in H1, H2. congruence. }
  split; [exact Hget|].
  intros p proc Hp. rewrite Hget, Hp. cbn. unfold registry_entry.
  eexists. split; [reflexivity|]. by split.
Qed.

(** ** The observer: which sessions are open *)

Lemma span_requests_app name D2 D1 :
  span_requests name (D2 ++ D1) = span_requests name D2 ++ span_requests name D1.
Proof. apply omap_app. Qed.










#[local] Arguments poll : simpl never.



(** ** The observer: shutting down *)

Lemma cleanup_each E (kvs : list (Z * ClaudeProcess)) :
  forall (obs : GlobalClaudeObserver) tr,
    exists D,
      for_each kvs (fun kv =>
        match logger_instance (snd kv) with
        | Some logger =>
            try_except
              (on_object logger (end_session E (Some "Observer shutdown"));;; ret tt)
              (fun e => log ERROR (OtherRecord
                 ("Error ending session for PID " +:+ pretty (pid (snd kv)) +:+ ": " +:+ e)))
        | None => ret tt
        end) obs tr = (Ok tt, obs, D ++ tr)
      /\ span_requests "session_end" D = rev (omap held_client kvs)
      /\ constructed D = [] /\ loop_errors D = []
      /\ terminated D = [] /\ discovered D = [] /\ instrumented D = [].
Proof.
  induction kvs as [|[p proc] kvs IH]; intros obs tr.
  - exists []. by repeat split.
  - cbn [for_each snd]. unfold bind at 1.
    destruct (logger_instance proc) as [l|] eqn:Hl.
    + destruct (end_session_quiet E (Some "Observer shutdown") l tr)
        as (res & D1 & Hrun & He1 & Hc1 & (_ & Ht1 & Hd1 & Hi1 & Hl1)).
      unfold try_except at 1. unfold bind at 1. unfold on_object at 1.
      rewrite Hrun. unfold ret at 1.
      destruct (IH obs (D1 ++ tr)) as (D2 & Hrun2 & He2 & Hc2 & Hl2 & Ht2 & Hd2 & Hi2).
      exists (D2 ++ D1). rewrite Hrun2. split; [by rewrite app_assoc|].
      unfold span_requests, terminated, discovered, instrumented, loop_errors,
        constructed in *.
      rewrite !omap_app, He1, He2, Hc1, Hc2, Hl1, Hl2, Ht1, Ht2, Hd1, Hd2, Hi1, Hi2.
      cbn [omap list_omap]. unfold held_client at 2. cbn [snd]. rewrite Hl.
      by repeat split.
    + unfold ret at 1.
      destruct (IH obs tr) as (D2 & Hrun2 & He2 & Hrest).
      exists D2. split; [exact Hrun2|]. split; [|exact Hrest].
      rewrite He2. cbn [omap list_omap]. unfold held_client at 2. cbn [snd].
      by rewrite Hl.
Qed.

Lemma cleanup_walk_run E walk obs tr :
  exists D,
    cleanup_walk E walk obs tr = (Ok tt, set_running false obs, D ++ tr)
    /\ span_requests "session_end" D = rev (omap held_client walk)
    /\ constructed D = [] /\ loop_errors D = []
    /\ terminated D = [] /\ discovered D = [] /\ instrumented D = [].
Proof.
  destruct (cleanup_each E walk obs
              (Log INFO (OtherRecord "Cleaning up instrumented processes...") :: tr))
    as (D & Hrun & He & Hc & Hl & Ht & Hd & Hi).
  exists (Log INFO (OtherRecord "Global observer shutdown complete")
            :: D ++ [Log INFO (OtherRecord "Cleaning up instrumented processes...")]).
  split.
  { unfold cleanup_walk. unfold bind at 1. unfold log at 1, emit at 1.
    unfold bind at 1. rewrite Hrun.
    unfold_py. cbn. by rewrite <- app_assoc. }
  change (span_requests ?n (Log ?l ?r :: ?X)) with (span_requests n X).
  change (constructed (Log ?l ?r :: ?X)) with (constructed X).
  change (loop_errors (Log INFO ?r :: ?X)) with (loop_errors X).
  change (terminated (Log INFO (OtherRecord ?r) :: ?X)) with (terminated X).
  change (discovered (Log INFO (OtherRecord ?r) :: ?X)) with (discovered X).
  change (instrumented (Log INFO (OtherRecord ?r) :: ?X)) with (instrumented X).
  unfold span_requests, terminated, discovered, instrumented, loop_errors,
    constructed in *.
  rewrite !omap_app, He, Hc, Hl, Ht, Hd, Hi. cbn. rewrite ?app_nil_r.
  by repeat split.
Qed.


(** X13: [cleanup] never raises, in whatever order the tracked processes
    are walked: it requests the end of the session of each recorder met in
    the walk, once, in the order of the walk; it logs no error, builds no
    client, keeps the tracked processes and clears [running].  When the walk
    visits the tracked processes, each once, the clients on which the end of
    the session is requested are the clients of the recorders that the
    observer holds, each as often. *)
Theorem cleanup_ends_every_held_session E (walk : list (Z * ClaudeProcess)) obs tr :
  exists D,
    cleanup_walk E walk obs tr = (Ok tt, set_running false obs, D ++ tr)
    /\ span_requests "session_end" D = rev (omap held_client walk)
    /\ (walk ≡ₚ map_to_list (discovered_processes obs) ->
        span_requests "session_end" D ≡ₚ held_clients (discovered_processes obs))
    /\ constructed D = [] /\ loop_errors D = []
    /\ terminated D = [] /\ discovered D = [] /\ instrumented D = [].
Proof.
  destruct (cleanup_walk_run E walk obs tr) as (D & Hrun & He & Hrest).
  exists D. split; [exact Hrun|]. split; [exact He|]. split; [|exact Hrest].
  intros Hwalk. rewrite He, <- Permutation_rev. unfold held_clients. by rewrite Hwalk.
Qed.


(** ** The embedded session manager *)

Lemma manager_user_id (pid : Z) (env : option string) :
  (if truthy_str (Some (default ("user_" +:+ pretty pid) env))
   then default ("user_" +:+ pretty pid) env
   else default "anonymous" env)
  = default ("user_" +:+ pretty pid) env.
Proof.
  destruct env as [s|]; cbn [default from_option id]; [|reflexivity].
  change (truthy_str (Some s)) with (negb (String.eqb s "")).
  destruct (String.eqb s "") eqn:Hs; [|reflexivity].
  by apply String.eqb_eq in Hs as ->.
Qed.

Lemma manager_init_run E pid auto_detect m0 tr :
  let enabled := String.eqb (lower (default "true" (getenv E "CLAUDE_LANGFUSE_AUTO"))) "true" in
  let sid := "claude_session_" +:+ SessionManager._detect_terminal E pid +:+ "_"
               +:+ pretty (Qfloor (clock E tr)) +:+ "_" +:+ pretty pid in
  exists m D,
    SessionManager.__init__ E pid auto_detect m0 tr = (Ok tt, m, D ++ tr)
    /\ SessionManager.pid m = pid
    /\ SessionManager.auto_enabled m = enabled
    /\ span_requests "session_end" D = []
    /\ (length (constructed D) <= 1)%nat
    /\ if auto_detect && enabled then
         match psutil_process E pid, getcwd E with
         | None, inr _ =>
             SessionManager.session_id m = Some sid
             /\ (SessionManager.logger_instance m = None /\ constructed D = []
                 \/ exists l,
                      SessionManager.logger_instance m = Some l
                      /\ constructed D = [langfuse l]
                      /\ Logger.session_id l = sid
                      /\ user_id l
                         = default ("user_" +:+ pretty pid) (getenv E "CLAUDE_USER_ID")
                      /\ interaction_count l = 0)
         | Some e, _ | None, inl e =>
             SessionManager.session_id m = None
             /\ SessionManager.logger_instance m = None
             /\ D = [Log ERROR (AutoInitFailed e)]
         end
       else
         D = [] /\ SessionManager.session_id m = None
         /\ SessionManager.logger_instance m = None.
Proof.
  intros enabled sid. unfold SessionManager.__init__. fold enabled.
  destruct (auto_detect && enabled) eqn:Hauto.
  2:{ eexists _, []. split; [reflexivity|]. repeat split. cbn. lia. }
  unfold SessionManager._auto_initialize.
  unfold try_except, bind at 1, get_self at 1.
  unfold bind at 1. cbn [SessionManager.pid].
  destruct (psutil_process E pid) as [e0|].
  { cbn. eexists _, [_]. split; [reflexivity|]. repeat split. cbn. lia. }
  unfold SessionManager.may_raise at 1, ret at 1.
  unfold bind at 1.
  destruct (getcwd E) as [e0|working_dir].
  { cbn. eexists _, [_]. split; [reflexivity|]. repeat split. cbn. lia. }
  unfold ret at 1.
  unfold bind at 1. unfold now at 1. fold sid.
  unfold bind at 1, set_self at 1. unfold bind at 1, get_self at 1.
  cbn [SessionManager.pid SessionManager.set_session_id].
  unfold bind at 1.
  match goal with
  | |- context [__init__ ?E ?u ?s ?c ?o ?t] =>
      destruct (init_run E u s c o t)
        as (D0 & [(l & Hinit & Hcount & _ & _ & _ & Hc)|(e & Hinit & Hc)] & He & _)
  end.
  - pose proof (init_result E _ _ _ _ _ _ _ l Hinit) as (Huid & Hsid & _).
    rewrite Hinit.
    assert (Hne : truthy_str (Some sid) = true).
    { unfold sid. reflexivity. }
    rewrite Hne in Hsid. cbn [default from_option id] in Hsid, Huid.
    rewrite manager_user_id in Huid.
    unfold bind at 1, set_self at 1. unfold bind at 1. unfold on_object at 1.
    match goal with
    | |- context [start_session ?E ?md ?l ?t] =>
        destruct (start_session_run E md l t) as (l' & D1 & Hstart & _ & _ & Hl' & _);
        destruct (start_session_quiet E md l t) as (l'' & D1' & Hstart' & He1 & Hc1 & _);
        rewrite Hstart in Hstart'; injection Hstart' as <- HD;
        apply app_inv_tail in HD as <-;
        rewrite Hstart
    end.
    assert (Hcons : constructed (D1 ++ D0 ++ [Clock (clock E tr)]) = [langfuse l']).
    { rewrite !constructed_app, Hc1, Hc.
      destruct Hl' as [->|(r & -> & _)]; reflexivity. }
    assert (Hends : span_requests "session_end" (D1 ++ D0 ++ [Clock (clock E tr)]) = []).
    { by rewrite !span_requests_app, He1, He. }
    assert (Hl : Logger.session_id l' = sid
                 /\ user_id l' = default ("user_" +:+ pretty pid) (getenv E "CLAUDE_USER_ID")
                 /\ interaction_count l' = 0).
    { destruct Hl' as [->|(r & -> & _)]; by repeat split. }
    unfold_py. cbn.
    destruct (signal_signal E 15) as [e1|]; [|destruct (signal_signal E 2) as [e2|]]; cbn.
    all: do 2 eexists; split; [give_delta|].
    all: split; [reflexivity|]; split; [reflexivity|].
    all: repeat change (span_requests ?n (Log ?a ?b :: ?X)) with (span_requests n X).
    all: repeat change (constructed (Log ?a ?b :: ?X)) with (constructed X).
    all: rewrite Hends, Hcons.
    all: split; [reflexivity|]; split; [cbn; lia|]; split; [reflexivity|].
    all: right; exists l'; split; [reflexivity|]; split; [reflexivity|exact Hl].
  - rewrite Hinit. unfold_py. cbn.
    do 2 eexists. split; [give_delta|].
    split; [reflexivity|]. split; [reflexivity|].
    change (span_requests ?n (Log ?a ?b :: ?X)) with (span_requests n X).
    change (constructed (Log ?a ?b :: ?X)) with (constructed X).
    rewrite !span_requests_app, !constructed_app, He, Hc.
    split; [reflexivity|]. split; [cbn; lia|]. split; [reflexivity|].
    left. by split.
Qed.

(** X15: building a session manager never raises, and builds at most one
    client.  When auto-detection is off, or [CLAUDE_LANGFUSE_AUTO] is not
    [true] in any case of letters, nothing happens and the manager has
    neither a session id nor a recorder.  Otherwise, when looking up the
    own process or reading the working directory raises, the failure is
    logged and the manager has neither of them either.  When both
    succeed, the session id is made of the detected terminal, the clock and
    the pid; when the client cannot be built the manager keeps this id but
    has no recorder; when it can, the manager holds one recorder, on the
    one client built, with the same session id, with the user id of the
    environment or else ["user_<pid>"], and with no interaction counted,
    also when registering a signal handler raises afterwards.  No end of
    a session is requested. *)
Theorem manager_init_binds_session_id E pid auto_detect m0 tr :
  let enabled := String.eqb (lower (default "true" (getenv E "CLAUDE_LANGFUSE_AUTO"))) "true" in
  let sid := "claude_session_" +:+ SessionManager._detect_terminal E pid +:+ "_"
               +:+ pretty (Qfloor (clock E tr)) +:+ "_" +:+ pretty pid in
  exists m D,
    SessionManager.__init__ E pid auto_detect m0 tr = (Ok tt, m, D ++ tr)
    /\ SessionManager.pid m = pid
    /\ SessionManager.auto_enabled m = enabled
    /\ span_requests "session_end" D = []
    /\ (length (constructed D) <= 1)%nat
    /\ if auto_detect && enabled then
         match psutil_process E pid, getcwd E with
         | None, inr _ =>
             SessionManager.session_id m = Some sid
             /\ (SessionManager.logger_instance m = None /\ constructed D = []
                 \/ exists l,
                      SessionManager.logger_instance m = Some l
                      /\ constructed D = [langfuse l]
                      /\ Logger.session_id l = sid
                      /\ user_id l
                         = default ("user_" +:+ pretty pid) (getenv E "CLAUDE_USER_ID")
                      /\ interaction_count l = 0)
         | Some e, _ | None, inl e =>
             SessionManager.session_id m = None
             /\ SessionManager.logger_instance m = None
             /\ D = [Log ERROR (AutoInitFailed e)]
         end
       else
         D = [] /\ SessionManager.session_id m = None
         /\ SessionManager.logger_instance m = None.
Proof. apply manager_init_run. Qed.

(** What ending the session does to a manager that holds a recorder. *)
Lemma manager_end_session_held E reason l m tr :
  exists res D,
    SessionManager.end_session E reason (SessionManager.set_logger_instance (Some l) m) tr
    = (Ok (Some res), SessionManager.set_logger_instance None m, D ++ tr)
    /\ span_requests "session_end" D = [langfuse l]
    /\ constructed D = []
    /\ exists D', Logger.end_session E (Some reason) l tr = (Ok res, l, D' ++ tr)
                  /\ D = Log INFO (SessionEnded (SessionManager.session_id m) res) :: D'.
Proof.
  destruct (end_session_quiet E (Some reason) l tr) as (res & D & Hrun & He & Hc & _).
  exists res, (Log INFO (SessionEnded (SessionManager.session_id m) res) :: D).
  split; [|split; [exact He|split; [exact Hc|by exists D]]].
  unfold SessionManager.end_session. unfold bind at 1, get_self at 1.
  cbn [SessionManager.logger_instance SessionManager.set_logger_instance].
  unfold bind at 1, on_object at 1. rewrite Hrun. reflexivity.
Qed.

(** X16: a session manager without a recorder does nothing: logging a tool
    and leaving the [with] statement change neither the manager nor the
    trace, there is no dashboard address, and a termination signal is only
    logged.  A manager that holds a recorder passes an interaction on to
    it and keeps the recorder with its count advanced; logging a tool
    leaves the manager as it is; the dashboard address is that of the
    recorder; and leaving the [with] statement or receiving a termination
    signal requests the end of the session once and drops the recorder, so
    that a second signal finds nothing to end. *)
Theorem manager_acts_only_through_its_recorder E m tr :
  let idle := SessionManager.set_logger_instance None m in
  (forall name input output success,
      SessionManager.log_tool_usage E name input output success idle tr = (Ok tt, idle, tr))
  /\ SessionManager.get_trace_url E idle = None
  /\ (forall exc_type, SessionManager.__exit__ E exc_type idle tr = (Ok tt, idle, tr))
  /\ (forall signum, exists D,
        SessionManager._cleanup_handler E signum idle tr = (Ok tt, idle, D ++ tr)
        /\ remote_calls D = [])
  /\ (forall l,
        let held := SessionManager.set_logger_instance (Some l) m in
        (forall prompt response tools, exists res D,
            Logger.log_interaction E prompt response tools None None l tr
              = (Ok res, set_interaction_count (interaction_count l + 1) l, D ++ tr)
            /\ SessionManager.log_interaction E prompt response tools held tr
               = (Ok res,
                  SessionManager.set_logger_instance
                    (Some (set_interaction_count (interaction_count l + 1) l)) m,
                  D ++ tr))
        /\ (forall name input output success, exists D o,
              SessionManager.log_tool_usage E name input output success held tr
                = (Ok tt, held, D ++ tr)
              /\ first_call D
                 = Some (langfuse l, start_as_current_span ("tool_" +:+ name), o))
        /\ SessionManager.get_trace_url E held = Some (Logger.get_trace_url E None l)
        /\ (forall exc_type, exists D,
              SessionManager.__exit__ E exc_type held tr = (Ok tt, idle, D ++ tr)
              /\ span_requests "session_end" D = [langfuse l])
        /\ (forall signum, exists D D2,
              SessionManager._cleanup_handler E signum held tr = (Ok tt, idle, D ++ tr)
              /\ span_requests "session_end" D = [langfuse l]
              /\ SessionManager._cleanup_handler E signum idle (D ++ tr)
                 = (Ok tt, idle, D2 ++ D ++ tr)
              /\ span_requests "session_end" D2 = [])).
Proof.
  intros idle.
  assert (Hidle_end : forall reason tr',
            SessionManager.end_session E reason idle tr' = (Ok None, idle, tr'))
    by reflexivity.
  split; [by intros|]. split; [reflexivity|].
  split.
  { intros [name|]; unfold SessionManager.__exit__, bind; by rewrite Hidle_end. }
  assert (Hsig : forall signum tr',
            SessionManager._cleanup_handler E signum idle tr'
            = (Ok tt, idle,
               [Log INFO (OtherRecord ("Received signal " +:+ pretty signum
                                         +:+ ", cleaning up session"))] ++ tr')).
  { intros signum tr'. unfold SessionManager._cleanup_handler.
    unfold bind at 1, log at 1, emit at 1. unfold bind. by rewrite Hidle_end. }
  split.
  { intros signum. eexists. split; [apply Hsig|reflexivity]. }
  intros l held. split; [|split; [|split; [|split]]].
  - intros prompt response tools.
    destruct (log_interaction_run E prompt response tools None None l tr)
      as (res & D & Hrun & _).
    exists res, D. split; [exact Hrun|].
    unfold SessionManager.log_interaction. unfold bind at 1, get_self at 1.
    cbn [SessionManager.logger_instance held SessionManager.set_logger_instance].
    unfold bind at 1, on_object at 1. rewrite Hrun. reflexivity.
  - intros name input output success.
    match goal with
    | |- context [SessionManager.log_tool_usage _ _ _ _ _ _ _] =>
        destruct (log_tool_usage_run E
                    [("name", VStr name); ("input", VDict input);
                     ("output", VDict output); ("success", VBool success)] l tr)
          as (D & Hrun & _ & Hfirst & _)
    end.
    exists D. eexists. split.
    + unfold SessionManager.log_tool_usage. unfold bind at 1, get_self at 1.
      cbn [SessionManager.logger_instance held SessionManager.set_logger_instance].
      unfold bind at 1, on_object at 1. rewrite Hrun. reflexivity.
    + exact Hfirst.
  - reflexivity.
  - intros exc_type.
    destruct exc_type as [name|]; unfold SessionManager.__exit__.
    + destruct (manager_end_session_held E ("Session ended with exception: " +:+ name) l m tr)
        as (res & D & Hrun & He & _).
      exists D. split; [|exact He]. unfold bind, held. by rewrite Hrun.
    + destruct (manager_end_session_held E "Session completed normally" l m tr)
        as (res & D & Hrun & He & _).
      exists D. split; [|exact He]. unfold bind, held. by rewrite Hrun.
  - intros signum.
    set (e := Log INFO (OtherRecord ("Received signal " +:+ pretty signum
                                       +:+ ", cleaning up session"))).
    destruct (manager_end_session_held E
                ("Process terminated with signal " +:+ pretty signum) l m (e :: tr))
      as (res & D & Hrun & He & _).
    exists (D ++ [e]), [e]. split; [|split; [|split]].
    + unfold SessionManager._cleanup_handler.
      unfold bind at 1, log at 1, emit at 1. fold e. unfold bind, held.
      rewrite Hrun. by rewrite <- app_assoc.
    + by rewrite span_requests_app, He.
    + apply Hsig.
    + reflexivity.
Qed.

(** ** The tracker script *)

Lemma constructed_print line D : constructed (Print line :: D) = constructed D.
Proof. reflexivity. Qed.

Lemma span_requests_print name line D :
  span_requests name (Print line :: D) = span_requests name D.
Proof. reflexivity. Qed.

Lemma raised_print line D : raised (Print line :: D) = raised D.
Proof. reflexivity. Qed.

Lemma logger_only_constructed D : logger_only D -> constructed D = [].
Proof.
  intros (Hc & _). induction D as [|e D IH]; [reflexivity|].
  destruct e; cbn in *; try discriminate; by apply IH.
Qed.

(** X17: the self-test of the tracker never raises, and it fails only when
    the client cannot be built: once a client is built the test reports
    success whatever the sink answers to the calls that follow, also when
    every one of them raises, and it has then requested the end of its
    session once. *)
Theorem tracker_test_passes_whenever_a_client_is_built E (o : Tracker.ClaudeTracker) tr :
  exists b D,
    Tracker.test E o tr = (Ok b, o, D ++ tr)
    /\ (b = true
          /\ (exists h, constructed D = [h] /\ span_requests "session_end" D = [h])
          /\ head D = Some (Print (nl +:+ "✅ All tests passed!"))
        \/ b = false
           /\ constructed D = [] /\ span_requests "session_end" D = []
           /\ exists e, head D = Some (Print ("   Error: " +:+ e))).
Proof.
  set (tr0 := Print "🧪 Testing Claude Code Tracker..." :: tr).
  destruct (init_run E (Some "test@example.com") None None o tr0)
    as (D0 & [(l & Hinit & _ & _ & _ & _ & Hc0)|(e & Hinit & Hc0)] & He0 & _).
  - destruct (start_session_run E (Some [("test", VBool true)]) l (D0 ++ tr0))
      as (l1 & D1 & Hstart & _ & _ & Hl1 & _).
    destruct (start_session_quiet E (Some [("test", VBool true)]) l (D0 ++ tr0))
      as (l1' & D1' & Hstart' & He1 & Hc1 & _).
    rewrite Hstart in Hstart'. injection Hstart' as <- HD.
    apply app_inv_tail in HD as <-.
    destruct (log_interaction_run E "Test prompt" "Test response"
                (Some [[("name", VStr "TestTool"); ("success", VBool true)]])
                None None l1 (D1 ++ D0 ++ tr0))
      as (res & D2 & Hlog & _ & _ & He2 & Honly2 & _).
    apply logger_only_constructed in Honly2 as Hc2.
    set (l2 := set_interaction_count (interaction_count l1 + 1) l1) in *.
    set (D3 := if truthy (dict_get_default "trace_id" VNone res) then
                 [Print ("   Test trace: " +:+
                           get_trace_url E
                             (Some (str_of (dict_get_default "trace_id" VNone res))) l2);
                  Print "✅ LangFuse connection: OK"]
               else [Print "⚠️ LangFuse connection: Trace created but no ID returned"]).
    destruct (end_session_quiet E (Some "Test completed") l2 (D3 ++ D2 ++ D1 ++ D0 ++ tr0))
      as (stats & D4 & Hend & He4 & Hc4 & _).
    assert (Hl : langfuse l2 = langfuse l).
    { unfold l2. destruct Hl1 as [->|(r & -> & _)]; reflexivity. }
    assert (H3 : constructed D3 = [] /\ span_requests "session_end" D3 = []).
    { unfold D3. by destruct (truthy _). }
    destruct H3 as [Hc3 He3].
    exists true,
      (Print (nl +:+ "✅ All tests passed!") :: D4 ++ D3 ++ D2 ++ D1 ++ D0
         ++ [Print "🧪 Testing Claude Code Tracker..."]).
    split.
    { unfold Tracker.test.
      unfold bind at 1, print at 1, emit at 1. fold tr0.
      unfold bind at 1, try_except at 1.
      unfold bind at 1. rewrite Hinit.
      unfold bind at 1, on_object at 1. rewrite Hstart. cbn [fst snd].
      unfold bind at 1, on_object at 1. rewrite Hlog. cbn [fst snd]. fold l2.
      unfold bind at 1.
      assert (Hprints :
        (if truthy (dict_get_default "trace_id" VNone res) then
           print "✅ LangFuse connection: OK";;;
           print ("   Test trace: " +:+
                    get_trace_url E
                      (Some (str_of (dict_get_default "trace_id" VNone res))) l2)
         else print "⚠️ LangFuse connection: Trace created but no ID returned")
          o (D2 ++ D1 ++ D0 ++ tr0)
        = (Ok tt, o, D3 ++ D2 ++ D1 ++ D0 ++ tr0)).
      { unfold D3. by destruct (truthy _). }
      rewrite Hprints.
      unfold bind at 1, on_object at 1. rewrite Hend.
      unfold_py. cbn [app]. unfold tr0. by rewrite <- !app_assoc. }
    left. split; [reflexivity|]. split; [|reflexivity].
    exists (langfuse l).
    rewrite constructed_print, span_requests_print.
    rewrite !constructed_app, !span_requests_app, Hc4, Hc3, Hc2, Hc1, Hc0,
      He4, He3, He2, He1, He0, Hl.
    by split.
  - exists false,
      (Print ("   Error: " +:+ e) :: Print "❌ LangFuse connection: Failed" :: D0
         ++ [Print "🧪 Testing Claude Code Tracker..."]).
    split.
    { unfold Tracker.test.
      unfold bind at 1, print at 1, emit at 1. fold tr0.
      unfold bind at 1, try_except at 1.
      unfold bind at 1. rewrite Hinit.
      unfold_py. cbn [app]. unfold tr0. by rewrite <- !app_assoc. }
    right. split; [reflexivity|].
    rewrite !constructed_print, !span_requests_print, constructed_app,
      span_requests_app, Hc0, He0.
    split; [reflexivity|]. split; [reflexivity|]. by exists e.
Qed.


(** ** The functions of the session manager module *)

Lemma get_session_manager_later E pid m tr :
  Convenience.get_session_manager E pid (Some m) tr = (Ok m, Some m, tr).
Proof. reflexivity. Qed.

Lemma get_session_manager_first E pid tr :
  exists m D,
    Convenience.get_session_manager E pid None tr = (Ok m, Some m, D ++ tr)
    /\ span_requests "session_end" D = []
    /\ (length (constructed D) <= 1)%nat.
Proof.
  destruct (manager_init_run E pid true
              {| SessionManager.logger_instance := None; SessionManager.session_id := None;
                 SessionManager.pid := pid; SessionManager.auto_enabled := false |} tr)
    as (m & D & Hrun & _ & _ & He & Hc & _).
  exists m, D. split; [|split; [exact He|exact Hc]].
  unfold Convenience.get_session_manager. unfold bind at 1, get_self at 1.
  by rewrite Hrun.
Qed.

Lemma serve_later E pid r m tr :
  exists m' D,
    Convenience.serve E pid r (Some m) tr = (Ok tt, Some m', D ++ tr)
    /\ constructed D = []
    /\ span_requests "session_end" D = []
    /\ (SessionManager.logger_instance m = None -> m' = m /\ D = []).
Proof.
  destruct m as [[l|] sid p a].
  - destruct r as [prompt response tools|name input output success|].
    + destruct (log_interaction_run E prompt response tools None None l tr)
        as (res & D & Hrun & _ & _ & He & Honly & _).
      eexists _, D. split; [|split; [by apply logger_only_constructed|split; [exact He|done]]].
      unfold Convenience.serve, Convenience.log_interaction.
      unfold bind at 1. unfold bind at 1. rewrite get_session_manager_later.
      unfold bind at 1, on_object at 1, SessionManager.log_interaction.
      unfold bind at 1, get_self at 1. cbn [SessionManager.logger_instance].
      unfold bind at 1, on_object at 1. rewrite Hrun. reflexivity.
    + destruct (log_tool_usage_run E
                  [("name", VStr name); ("input", VDict input);
                   ("output", VDict output); ("success", VBool success)] l tr)
        as (D & Hrun & _ & _ & _ & He & Honly & _).
      eexists _, D. split; [|split; [by apply logger_only_constructed|split; [exact He|done]]].
      unfold Convenience.serve, Convenience.log_tool_usage.
      unfold bind at 1. rewrite get_session_manager_later.
      unfold bind at 1, on_object at 1, SessionManager.log_tool_usage.
      unfold bind at 1, get_self at 1. cbn [SessionManager.logger_instance].
      unfold bind at 1, on_object at 1. rewrite Hrun. reflexivity.
    + eexists _, []. split; [reflexivity|]. by repeat split.
  - eexists _, []. split; [by destruct r|]. by repeat split.
Qed.

Lemma serve_first E pid r tr :
  exists m' D,
    Convenience.serve E pid r None tr = (Ok tt, Some m', D ++ tr)
    /\ (length (constructed D) <= 1)%nat
    /\ span_requests "session_end" D = [].
Proof.
  destruct (get_session_manager_first E pid tr) as (m & D0 & Hget & He0 & Hc0).
  destruct (serve_later E pid r m (D0 ++ tr)) as (m' & D1 & Hrun & Hc1 & He1 & _).
  exists m', (D1 ++ D0). split; [|split].
  - rewrite <- app_assoc, <- Hrun.
    destruct r; unfold Convenience.serve, Convenience.log_interaction,
      Convenience.log_tool_usage, Convenience.get_trace_url.
    + unfold bind at 1. unfold bind at 1. rewrite Hget.
      symmetry. unfold bind at 1. unfold bind at 1.
      by rewrite get_session_manager_later.
    + unfold bind at 1. rewrite Hget.
      symmetry. unfold bind at 1. by rewrite get_session_manager_later.
    + unfold bind at 1. unfold bind at 1. rewrite Hget.
      symmetry. unfold bind at 1. unfold bind at 1.
      by rewrite get_session_manager_later.
  - by rewrite constructed_app, Hc1.
  - by rewrite span_requests_app, He1, He0.
Qed.

Lemma serve_all_later E pid requests :
  forall m tr,
    exists m' D,
      for_each requests (Convenience.serve E pid) (Some m) tr = (Ok tt, Some m', D ++ tr)
      /\ constructed D = []
      /\ span_requests "session_end" D = []
      /\ (SessionManager.logger_instance m = None -> m' = m /\ D = []).
Proof.
  induction requests as [|r requests IH]; intros m tr.
  - exists m, []. by repeat split.
  - destruct (serve_later E pid r m tr) as (m1 & D1 & Hrun1 & Hc1 & He1 & Hidle1).
    destruct (IH m1 (D1 ++ tr)) as (m' & D2 & Hrun2 & Hc2 & He2 & Hidle2).
    exists m', (D2 ++ D1). split; [|split; [|split]].
    + cbn [for_each]. unfold bind at 1. rewrite Hrun1, Hrun2. by rewrite app_assoc.
    + by rewrite constructed_app, Hc1, Hc2.
    + by rewrite span_requests_app, He1, He2.
    + intros Hnone. destruct (Hidle1 Hnone) as [-> ->].
      destruct (Hidle2 Hnone) as [-> ->]. by split.
Qed.

(** X19: the functions of the module share one manager.  Whatever
    requests are served, none raises and none requests the end of the
    session.  From a module without a manager the first request builds it,
    and at most one client is built over all requests; once there is a
    manager no client is ever built, so that a manager whose recorder could
    not be built stays without one: every later request leaves it as it is
    and adds no event. *)
Theorem convenience_calls_share_one_manager E pid
    (requests : list Convenience.request) (g : option SessionManager.ClaudeSessionManager) tr :
  exists g' D,
    for_each requests (Convenience.serve E pid) g tr = (Ok tt, g', D ++ tr)
    /\ span_requests "session_end" D = []
    /\ match g with
       | Some m =>
           constructed D = []
           /\ is_Some g'
           /\ (SessionManager.logger_instance m = None -> g' = Some m /\ D = [])
       | None =>
           (length (constructed D) <= 1)%nat
           /\ (requests = [] /\ g' = None \/ requests <> [] /\ is_Some g')
       end.
Proof.
  destruct g as [m|].
  - destruct (serve_all_later E pid requests m tr) as (m' & D & Hrun & Hc & He & Hidle).
    exists (Some m'), D. split; [exact Hrun|]. split; [exact He|].
    split; [exact Hc|]. split; [by eexists|].
    intros Hnone. destruct (Hidle Hnone) as [-> ->]. by split.
  - destruct requests as [|r requests].
    + exists None, []. split; [reflexivity|]. split; [reflexivity|].
      split; [cbn; lia|]. by left.
    + destruct (serve_first E pid r tr) as (m1 & D1 & Hrun1 & Hc1 & He1).
      destruct (serve_all_later E pid requests m1 (D1 ++ tr))
        as (m' & D2 & Hrun2 & Hc2 & He2 & _).
      exists (Some m'), (D2 ++ D1). split; [|split; [|split]].
      * cbn [for_each]. unfold bind at 1. rewrite Hrun1, Hrun2. by rewrite app_assoc.
      * by rewrite span_requests_app, He1, He2.
      * by rewrite constructed_app, Hc2.
      * right. split; [done|by eexists].
Qed.
